(** * wifi_capture: a model of the SoapySDR Wi-Fi capture tool

    The development embeds [wifi/packets&signals/wifi_capture.cpp] (202 lines):
    the channel mapper [wifi2g_ch_to_hz], the UTC stamp [now_utc_compact], the
    sidecar writer [write_sidecar_json] and [main] with its command line loop,
    device set-up, streaming loop and teardown.

    The program talks to a radio driver, a clock, a file system and the
    operator's signals.  Their answers are the fields of an [Env]; what the
    program does to them is recorded in a [World]: the files as the host has
    them, the bytes that the output stream still buffers, the global flag
    [g_stop] and the chronological list of calls and messages.  A statement of
    the program is a function [World -> result * World]. *)

From Stdlib Require Import ZArith String List Bool Lia Floats Uint63 DecimalString.
From Stdlib Require Strings.Byte.
From stdpp Require Import base list gmap strings.

Local Open Scope Z_scope.

(** ** Numbers *)

(** C++ [double] is IEEE 754 binary64, the kernel's primitive [float]. *)
Abbreviation double := float.

(** [size_t] arithmetic is modulo 2^64. *)
Definition SIZE_MOD : Z := 2 ^ 64.
Definition size_t_wrap (z : Z) : Z := z mod SIZE_MOD.

(** Conversion of a signed integer ([int], [long long]) to [double]. *)
Definition double_of_int (z : Z) : double :=
  if z <? 0 then (- of_uint63 (Uint63.of_Z (- z)))%float
  else of_uint63 (Uint63.of_Z z).

(** [operator<<] on an integer: its decimal digits. *)
Definition show_int (z : Z) : string := NilZero.string_of_int (Z.to_int z).

(** C++ [>=] on doubles: false as soon as one side is a NaN. *)
Definition double_ge (x y : double) : bool := (y <=? x)%float.

(** ** What the program takes from its libraries

    SoapySDR's headers and the C++ library are not part of the repository.
    Their constants and the conversions between text and numbers are the
    fields of a [Platform]. *)
Record Platform : Type := mkPlatform {
  SOAPY_SDR_CF32 : string;            (* SoapySDR/Formats.hpp *)
  SOAPY_SDR_TIMEOUT : Z;              (* SoapySDR/Errors.hpp *)
  SOAPY_SDR_OVERFLOW : Z;
  stoi : string -> option Z;          (* std::stoi, [None] when it throws *)
  stod : string -> option double;     (* std::stod, [None] when it throws *)
  show_double : double -> string;     (* ostream << double *)
  show_fixed3 : double -> string;     (* << std::fixed << std::setprecision(3) *)
  uint64_of_double : double -> Z      (* static_cast<uint64_t>(double) *)
}.

(** ** Worlds, events and the monad of statements *)

Abbreviation bytes := (list Byte.byte).
Abbreviation Kwargs := (gmap string string).

Inductive event : Type :=
| Enumerate (args : string)
| Make (args : string)
| SetSampleRate (rate : double)
| SetBandwidth (bw : double)
| SetFrequency (hz : double)
| SetDCOffsetMode (automatic : bool)
| SetIQBalance (re im : double)
| SetGain (value : double)
| GetStreamMTU
| SetupStream (format : string)
| ActivateStream
| Fopen (path : string)
| ReadStream (numElems timeoutUs : Z)
| Fwrite (size count : Z)
| DeactivateStream
| CloseStream
| Unmake
| DeleteDevice                        (* ~unique_ptr on a device still owned *)
| Fclose
| Ofstream (path : string)
| Cerr (msg : string)
| Cout (msg : string).

Record World : Type := mkWorld {
  fs : gmap string bytes;             (* the files as the host has them, by path *)
  trace : list event;                 (* oldest first *)
  g_stop : bool;                      (* static std::atomic<bool> g_stop *)
  unflushed : bytes                   (* taken by the FILE* [f], not yet handed on *)
}.

Inductive result (A : Type) : Type :=
| Ok (a : A)                          (* the statement completed *)
| Exit (code : Z)                     (* return from main, or std::exit *)
| Throw                               (* an exception is propagating *)
| Pending.                            (* the environment's script ran out *)
Arguments Ok {A} a.
Arguments Exit {A} code.
Arguments Throw {A}.
Arguments Pending {A}.

Definition M (A : Type) : Type := World -> result A * World.

#[global] Instance M_ret : MRet M := fun A a w => (Ok a, w).
#[global] Instance M_bind : MBind M := fun A B k m w =>
  match m w with
  | (Ok a, w') => k a w'
  | (Exit c, w') => (Exit c, w')
  | (Throw, w') => (Throw, w')
  | (Pending, w') => (Pending, w')
  end.

Definition emit (e : event) : M unit :=
  fun w => (Ok tt, mkWorld (fs w) (trace w ++ [e]) (g_stop w) (unflushed w)).
Definition cerr (msg : string) : M unit := emit (Cerr msg).
Definition cout (msg : string) : M unit := emit (Cout msg).
Definition return_ {A} (code : Z) : M A := fun w => (Exit code, w).
Definition throw {A} : M A := fun w => (Throw, w).
Definition pending {A} : M A := fun w => (Pending, w).

(** [try { m } catch (...) {}] *)
Definition try_ (m : M unit) : M unit := fun w =>
  match m w with
  | (Throw, w') => (Ok tt, w')
  | r => r
  end.

(** A library call that either returns or throws. *)
Definition call (e : event) (throws : bool) : M unit :=
  emit e ;; if throws then throw else mret tt.

(** Line 21: [void sigint_handler(int){ g_stop.store(true); }] *)
Definition sigint_handler (w : World) : World := mkWorld (fs w) (trace w) true (unflushed w).

Definition deliver (signal : bool) : M unit :=
  fun w => (Ok tt, if signal then sigint_handler w else w).
Definition g_stop_load : M bool := fun w => (Ok (g_stop w), w).

(** The exit status of a finished run. *)
Definition exit_code {A} (r : result A * World) : option Z :=
  match fst r with Exit c => Some c | _ => None end.

(** The messages on standard error, oldest first. *)
Definition stderr_of (t : list event) : list string :=
  omap (fun e => match e with Cerr m => Some m | _ => None end) t.

(** ** Lines 23-29: the channel mapper *)
Definition wifi2g_ch_to_hz (ch : Z) : M double :=
  if (1 <=? ch) && (ch <=? 13)
  then mret ((2412.0 + 5.0 * double_of_int (ch - 1)) * 1e6)%float
  else if ch =? 14 then mret (2484.0 * 1e6)%float
  else throw.

(** ** Text helpers *)
Definition nl : string := String (Ascii.ascii_of_nat 10) EmptyString.
Definition dq : string := String (Ascii.ascii_of_nat 34) EmptyString.
Definition quoted (s : string) : string := dq +:+ s +:+ dq.
Definition pad2 (z : Z) : string :=
  if z <? 10 then "0" +:+ show_int z else show_int z.

(** ** The environment *)

(** The broken-down UTC time that [gmtime_r] fills in. *)
Record tm : Type := mkTm {
  tm_year : Z; tm_mon : Z; tm_mday : Z; tm_hour : Z; tm_min : Z; tm_sec : Z
}.

(** One answer of [readStream]: its return value and what the driver stored
    at the start of the sample buffer. *)
Record ReadObs : Type := mkRead { rd_ret : Z; rd_data : bytes }.

(** What the environment does during one turn of the streaming loop: whether
    a SIGINT or SIGTERM arrived since the previous test of [g_stop], the
    reading of the steady clock (in nanoseconds), the answer of [readStream],
    the number of bytes that the output stream takes from [fwrite], and the
    number of buffered bytes that it hands on to the host during that call.
    The stream is the fully buffered one that [fopen] gives: the program
    calls neither [setvbuf] nor [fflush].  A turn that leaves early does not
    look at the later fields. *)
Record Iter : Type := mkIter {
  it_signal : bool;
  it_now : Z;
  it_read : ReadObs;
  it_accepted : Z;
  it_flushed : Z
}.

Record Env : Type := mkEnv {
  enumerate : string -> list Kwargs;    (* SoapySDR::Device::enumerate *)
  make : string -> bool;                (* Device::make gives a device *)
  setSampleRate_throws : bool;
  setBandwidth_throws : bool;
  setFrequency_throws : bool;
  setDCOffsetMode_throws : bool;
  setIQBalance_throws : bool;
  setGain_throws : bool;
  gmtime : tm;                          (* system_clock::now, gmtime_r *)
  getStreamMTU : Z;
  setupStream : string -> bool;         (* setupStream gives a stream *)
  fopen : string -> bool;               (* std::fopen(path, "wb") opens *)
  clock_t0 : Z;                         (* Clock::now() at line 159 *)
  script : list Iter;
  ofstream_open : string -> bool;       (* std::ofstream opens the path *)
  fclose_fails : option Z               (* [None]: the last flush goes through;
                                           [Some n]: it stops after n bytes *)
}.

(** ** Lines 31-44: the compact UTC stamp, [%Y%m%dT%H%M%SZ] *)
Definition now_utc_compact (E : Env) : string :=
  let gmt := gmtime E in
  show_int (1900 + tm_year gmt) +:+ pad2 (1 + tm_mon gmt) +:+ pad2 (tm_mday gmt)
  +:+ "T" +:+ pad2 (tm_hour gmt) +:+ pad2 (tm_min gmt) +:+ pad2 (tm_sec gmt) +:+ "Z".

(** ** Lines 46-67: the sidecar writer *)
Definition sidecar_text (P : Platform) (radio driver : string)
    (centerHz rate : double) (nsamps : Z) (fmt ts_utc : string) : string :=
  "{" +:+ nl
  +:+ "  " +:+ quoted "schema" +:+ ": " +:+ quoted "soapywifi.capture.v1" +:+ "," +:+ nl
  +:+ "  " +:+ quoted "radio" +:+ ": " +:+ quoted radio +:+ "," +:+ nl
  +:+ "  " +:+ quoted "driver" +:+ ": " +:+ quoted driver +:+ "," +:+ nl
  +:+ "  " +:+ quoted "center_hz" +:+ ": " +:+ show_fixed3 P centerHz +:+ "," +:+ nl
  +:+ "  " +:+ quoted "sample_rate" +:+ ": " +:+ show_fixed3 P rate +:+ "," +:+ nl
  +:+ "  " +:+ quoted "samples" +:+ ": " +:+ show_int nsamps +:+ "," +:+ nl
  +:+ "  " +:+ quoted "format" +:+ ": " +:+ quoted fmt +:+ "," +:+ nl
  +:+ "  " +:+ quoted "timestamp_utc" +:+ ": " +:+ quoted ts_utc +:+ nl
  +:+ "}" +:+ nl.

(** The stream is opened without a test; when it did not open, every [<<]
    is a no-op and nothing reaches the disk. *)
Definition write_sidecar_json (P : Platform) (E : Env) (pathJson radio driver : string)
    (centerHz rate : double) (nsamps : Z) (fmt ts_utc : string) : M unit :=
  fun w =>
    let text := sidecar_text P radio driver centerHz rate nsamps fmt ts_utc in
    let fs' := if ofstream_open E pathJson
               then <[pathJson := list_byte_of_string text]> (fs w)
               else fs w in
    (Ok tt, mkWorld fs' (trace w ++ [Ofstream pathJson]) (g_stop w) (unflushed w)).

(** ** Lines 77-109: defaults and the command line *)
Record Config : Type := mkConfig {
  devArgs : string;
  wifiCh : Z;
  sampRate : double;
  rfBw : double;
  gain : double;
  outDir : string;
  seconds : double;
  fmt : string
}.

Definition defaults (P : Platform) : Config :=
  mkConfig EmptyString 6 20e6%float 25e6%float 40.0%float "./captures" 10.0%float
           (SOAPY_SDR_CF32 P).

Definition set_devArgs (v : string) (c : Config) : Config :=
  mkConfig v (wifiCh c) (sampRate c) (rfBw c) (gain c) (outDir c) (seconds c) (fmt c).
Definition set_wifiCh (v : Z) (c : Config) : Config :=
  mkConfig (devArgs c) v (sampRate c) (rfBw c) (gain c) (outDir c) (seconds c) (fmt c).
Definition set_sampRate (v : double) (c : Config) : Config :=
  mkConfig (devArgs c) (wifiCh c) v (rfBw c) (gain c) (outDir c) (seconds c) (fmt c).
Definition set_rfBw (v : double) (c : Config) : Config :=
  mkConfig (devArgs c) (wifiCh c) (sampRate c) v (gain c) (outDir c) (seconds c) (fmt c).
Definition set_gain (v : double) (c : Config) : Config :=
  mkConfig (devArgs c) (wifiCh c) (sampRate c) (rfBw c) v (outDir c) (seconds c) (fmt c).
Definition set_outDir (v : string) (c : Config) : Config :=
  mkConfig (devArgs c) (wifiCh c) (sampRate c) (rfBw c) (gain c) v (seconds c) (fmt c).
Definition set_seconds (v : double) (c : Config) : Config :=
  mkConfig (devArgs c) (wifiCh c) (sampRate c) (rfBw c) (gain c) (outDir c) v (fmt c).
Definition set_fmt (v : string) (c : Config) : Config :=
  mkConfig (devArgs c) (wifiCh c) (sampRate c) (rfBw c) (gain c) (outDir c) (seconds c) v.

Definition usage : string :=
  "Usage: wifi_capture [--args key=val,...] [--chan N] [--rate S]" +:+ nl
  +:+ "                   [--bw Hz] [--gain G] [--out DIR]" +:+ nl
  +:+ "                   [--secs T] [--fmt SOAPY_SDR_CF32|SOAPY_SDR_CS16]" +:+ nl
  +:+ "Examples:" +:+ nl
  +:+ "  wifi_capture --args driver=lime --chan 6 --rate 20e6 --bw 25e6 --gain 45" +:+ nl
  +:+ "  wifi_capture --args driver=remote,remote:driver=lime,remote:ip=192.168.1.50 --chan 1" +:+ nl.

(** [std::stoi] and [std::stod] throw on text that is not a number. *)
Definition parse_with {A} (p : string -> option A) (v : string) : M A :=
  match p v with Some x => mret x | None => throw end.

(** [argv] is [argv[1]] ... [argv[argc-1]].  The lambda [need] leaves the
    process with status 2 when the flag is the last word, and otherwise
    consumes the next word whatever it is. *)
Fixpoint parse_cli (P : Platform) (argv : list string) (c : Config) : M Config :=
  match argv with
  | [] => mret c
  | a :: rest =>
    let need (name : string) (k : string -> list string -> M Config) : M Config :=
      match rest with
      | [] => cerr ("Missing value for " +:+ name +:+ nl) ;; return_ 2
      | v :: rest' => k v rest'
      end in
    if (a =? "--args")%string then
      need "--args" (fun v rest' => parse_cli P rest' (set_devArgs v c))
    else if (a =? "--chan")%string then
      need "--chan" (fun v rest' => n ← parse_with (stoi P) v; parse_cli P rest' (set_wifiCh n c))
    else if (a =? "--rate")%string then
      need "--rate" (fun v rest' => x ← parse_with (stod P) v; parse_cli P rest' (set_sampRate x c))
    else if (a =? "--bw")%string then
      need "--bw" (fun v rest' => x ← parse_with (stod P) v; parse_cli P rest' (set_rfBw x c))
    else if (a =? "--gain")%string then
      need "--gain" (fun v rest' => x ← parse_with (stod P) v; parse_cli P rest' (set_gain x c))
    else if (a =? "--out")%string then
      need "--out" (fun v rest' => parse_cli P rest' (set_outDir v c))
    else if (a =? "--secs")%string then
      need "--secs" (fun v rest' => x ← parse_with (stod P) v; parse_cli P rest' (set_seconds x c))
    else if (a =? "--fmt")%string then
      need "--fmt" (fun v rest' => parse_cli P rest' (set_fmt v c))
    else if (a =? "--help")%string then
      cout usage ;; return_ 0
    else parse_cli P rest c
  end.

(** ** Lines 111-163: from the enumeration to the open stream *)

(** Line 142: [sizeof(float)*2] or [sizeof(int16_t)*2]. *)
Definition elem_size (P : Platform) (fmt : string) : Z :=
  if (fmt =? SOAPY_SDR_CF32 P)%string then 4 * 2 else 2 * 2.

(** Line 154. *)
Definition bin_ext (P : Platform) (fmt : string) : string :=
  if (fmt =? SOAPY_SDR_CF32 P)%string then ".cf32" else ".cs16".

(** Lines 136-137. *)
Definition base_path (P : Platform) (c : Config) (freq : double) (ts : string) : string :=
  outDir c +:+ "/wifi2g_ch" +:+ show_int (wifiCh c) +:+ "_"
  +:+ show_int (uint64_of_double P freq) +:+ "Hz_"
  +:+ show_int (uint64_of_double P (sampRate c)) +:+ "sps_" +:+ ts.

(** [std::fopen(path, "wb")]: an opened file is created or truncated, and
    its stream starts with an empty buffer. *)
Definition fopen_wb (E : Env) (path : string) : M bool := fun w =>
  if fopen E path
  then (Ok true, mkWorld (<[path := []]> (fs w)) (trace w ++ [Fopen path]) (g_stop w) [])
  else (Ok false, mkWorld (fs w) (trace w ++ [Fopen path]) (g_stop w) (unflushed w)).

(** The local variables of [main] that are live when the loop starts. *)
Record Session : Type := mkSession {
  s_cfg : Config;
  s_front : Kwargs;                     (* results.front() *)
  s_freq : double;
  s_ts : string;
  s_elemSize : Z;
  s_mtu : Z;
  s_buffer : bytes;
  s_binPath : string;
  s_jsonPath : string;
  s_t0 : Z
}.

Definition capturing_msg (P : Platform) (c : Config) (freq : double) (mtu : Z) : string :=
  "Capturing " +:+ show_double P (seconds c) +:+ " s @ " +:+ show_double P (sampRate c)
  +:+ " sps on ch " +:+ show_int (wifiCh c)
  +:+ " (" +:+ show_double P (freq / 1e6)%float +:+ " MHz), MTU=" +:+ show_int mtu
  +:+ ", format=" +:+ fmt c +:+ nl.

(** A [return 1] taken while [dev] still owns the device runs the destructor
    of the [unique_ptr].  An exception that nobody catches leaves [main] as
    [Throw]: the process is terminated. *)
Definition open_session (P : Platform) (E : Env) (c : Config) : M Session :=
  emit (Enumerate (devArgs c)) ;;
  match enumerate E (devArgs c) with
  | [] =>
    cerr ("No SDR devices found with args: " +:+ quoted (devArgs c) +:+ nl) ;;
    return_ 1
  | front :: others =>
    cerr ("Found " +:+ show_int (Z.of_nat (length (front :: others)))
          +:+ " device(s). Using first." +:+ nl) ;;
    emit (Make (devArgs c)) ;;
    if negb (make E (devArgs c)) then (cerr ("Device::make failed" +:+ nl) ;; return_ 1) else
    freq ← wifi2g_ch_to_hz (wifiCh c);
    call (SetSampleRate (sampRate c)) (setSampleRate_throws E) ;;
    call (SetBandwidth (rfBw c)) (setBandwidth_throws E) ;;
    call (SetFrequency freq) (setFrequency_throws E) ;;
    try_ (call (SetDCOffsetMode true) (setDCOffsetMode_throws E)) ;;
    try_ (call (SetIQBalance 0.0 0.0) (setIQBalance_throws E)) ;;
    try_ (call (SetGain (gain c)) (setGain_throws E)) ;;
    let ts := now_utc_compact E in
    let base := base_path P c freq ts in
    let elemSize := elem_size P (fmt c) in
    emit GetStreamMTU ;;
    let mtu := getStreamMTU E in
    emit (SetupStream (fmt c)) ;;
    if negb (setupStream E (fmt c))
    then (cerr ("setupStream failed" +:+ nl) ;; emit DeleteDevice ;; return_ 1) else
    emit ActivateStream ;;
    let buffer := replicate (Z.to_nat (size_t_wrap (mtu * elemSize))) Byte.x00 in
    let binPath := base +:+ bin_ext P (fmt c) in
    let jsonPath := base +:+ ".json" in
    f ← fopen_wb E binPath;
    if negb f
    then (cerr ("Failed to open output: " +:+ binPath +:+ nl) ;; emit DeleteDevice ;; return_ 1) else
    let t0 := clock_t0 E in
    cerr (capturing_msg P c freq mtu) ;;
    mret (mkSession c front freq ts elemSize mtu buffer binPath jsonPath t0)
  end.

(** ** Lines 164-187: the streaming loop *)

(** Line 166: the steady clock counts nanoseconds; the difference is turned
    into a [double] number of seconds. *)
Definition elapsed_seconds (t0 now : Z) : double :=
  (double_of_int (now - t0) / 1e9)%float.

(** What the driver stored overwrites the start of the buffer, whose size
    does not change. *)
Definition store (data buffer : bytes) : bytes :=
  take (length buffer) (data ++ drop (length data) buffer).

(** Line 171: [readStream(rxStream, buffs.data(), mtu, flagsRead, timeNs, 200000)]. *)
Definition readStream (buffer : bytes) (numElems : Z) (rd : ReadObs) : M (Z * bytes) :=
  emit (ReadStream numElems 200000) ;; mret (rd_ret rd, store (rd_data rd) buffer).

(** Line 181: [fwrite(buffer.data(), size, count, f)] asks for the first
    [size * count] bytes of the buffer.  The stream takes [accepted] of them
    behind what it already buffers and returns the number of whole elements
    among them; of the buffered bytes, the first [flushed] go on to the host
    during the call and the others wait in the buffer. *)
Definition fwrite (path : string) (buffer : bytes) (size count accepted flushed : Z) : M Z :=
  fun w =>
    let request := take (Z.to_nat (size * count)) buffer in
    let taken := take (Z.to_nat accepted) request in
    let queued := unflushed w ++ taken in
    let old := default [] (fs w !! path) in
    (Ok (Z.of_nat (length taken) / size),
     mkWorld (<[path := old ++ take (Z.to_nat flushed) queued]> (fs w))
             (trace w ++ [Fwrite size count]) (g_stop w)
             (drop (Z.to_nat flushed) queued)).

Fixpoint streaming_loop (P : Platform) (s : Session) (turns : list Iter)
    (buffer : bytes) (totalSamps : Z) : M Z :=
  match turns return M Z with
  | [] => pending
  | it :: turns' =>
    deliver (it_signal it) ;;
    stop ← g_stop_load;
    if (stop : bool) then mret totalSamps else
    let elapsed := elapsed_seconds (s_t0 s) (it_now it) in
    if double_ge elapsed (seconds (s_cfg s)) then mret totalSamps else
    '(ret, buffer') ← readStream buffer (s_mtu s) (it_read it);
    if ret =? SOAPY_SDR_TIMEOUT P then streaming_loop P s turns' buffer' totalSamps else
    if ret =? SOAPY_SDR_OVERFLOW P then
      cerr ("[warn] OVERFLOW" +:+ nl) ;;
      streaming_loop P s turns' buffer' totalSamps
    else if ret <? 0 then
      cerr ("[err ] readStream ret=" +:+ show_int ret +:+ nl) ;;
      mret totalSamps
    else
      wrote ← fwrite (s_binPath s) buffer' (s_elemSize s) ret
                (it_accepted it) (it_flushed it);
      if negb (wrote =? ret) then
        cerr ("[err ] fwrite short write" +:+ nl) ;;
        mret totalSamps
      else streaming_loop P s turns' buffer' (size_t_wrap (totalSamps + ret))
  end.

(** ** Lines 189-201: teardown, sidecar and the last two messages *)

(** What the flush of [fclose] hands on to the host. *)
Definition last_flush (E : Env) (buffered : bytes) : bytes :=
  match fclose_fails E with
  | None => buffered
  | Some n => take (Z.to_nat n) buffered
  end.

(** Line 192: [std::fclose(f)] flushes the stream and releases it.  What a
    failing flush does not hand on is lost, and the value that reports the
    failure is not looked at. *)
Definition fclose (E : Env) (path : string) : M unit := fun w =>
  let old := default [] (fs w !! path) in
  (Ok tt, mkWorld (<[path := old ++ last_flush E (unflushed w)]> (fs w))
                  (trace w ++ [Fclose]) (g_stop w) []).

Definition finish (P : Platform) (E : Env) (s : Session) (totalSamps : Z) : M unit :=
  emit DeactivateStream ;;
  emit CloseStream ;;
  emit Unmake ;;
  fclose E (s_binPath s) ;;
  write_sidecar_json P E (s_jsonPath s)
    (default EmptyString (s_front s !! "label"))
    (default EmptyString (s_front s !! "driver"))
    (s_freq s) (sampRate (s_cfg s)) totalSamps (fmt (s_cfg s)) (s_ts s) ;;
  cerr ("Done. Wrote " +:+ show_int totalSamps +:+ " samples to " +:+ s_binPath s +:+ nl) ;;
  cerr ("Sidecar: " +:+ s_jsonPath s +:+ nl) ;;
  return_ 0.

(** ** Lines 69-202: [main]

    The log handler and the two signal handlers (lines 70-75) are installed
    first; they have no effect of their own. *)
Definition run_session (P : Platform) (E : Env) (c : Config) : M unit :=
  s ← open_session P E c;
  totalSamps ← streaming_loop P s (script E) (s_buffer s) 0;
  finish P E s totalSamps.

Definition main (P : Platform) (E : Env) (argv : list string) : M unit :=
  c ← parse_cli P argv (defaults P);
  run_session P E c.

(** A fresh process: no flag set, nothing written yet. *)
Definition boot (files : gmap string bytes) : World := mkWorld files [] false [].

(** ** A concrete platform and environment to run the model on

    SoapySDR's constants are those of its headers.  Numbers on the command
    line are decimal integers, and a [double] is printed by its integer
    part. *)
Definition trunc_double (x : double) : Z :=
  match Prim2SF x with
  | S754_finite sg m e =>
    let v := if 0 <=? e then Z.pos m * 2 ^ e else Z.pos m / 2 ^ (- e) in
    if sg then - v else v
  | _ => 0
  end.

Definition demo_stoi (v : string) : option Z :=
  match NilZero.int_of_string v with
  | Some d =>
    let z := Z.of_int d in
    if (- 2 ^ 31 <=? z) && (z <? 2 ^ 31) then Some z else None
  | None => None
  end.

Definition demo_platform : Platform :=
  mkPlatform "CF32" (-1) (-4)
    demo_stoi
    (fun v => double_of_int <$> demo_stoi v)
    (fun x => show_int (trunc_double x))
    (fun x => show_int (trunc_double x) +:+ ".000")
    (fun x => size_t_wrap (trunc_double x)).

Definition demo_device : Kwargs :=
  <["label" := "LimeSDR Mini"]> (<["driver" := "lime"]> ∅).

Definition demo_tm : tm := mkTm 126 9 30 16 9 5.

(** A driver with one device, a transfer unit of 4 samples, a disk that
    opens every file and takes every flush, and the loop script [turns]. *)
Definition demo_env (turns : list Iter) : Env :=
  mkEnv (fun _ => [demo_device]) (fun _ => true)
        false false false false false false
        demo_tm 4 (fun _ => true) (fun _ => true) 1000 turns (fun _ => true) None.

Definition second : Z := 1000000000.

(** A turn in which [readStream] delivers [data] as [n] samples and the
    stream takes everything into its buffer. *)
Definition good_turn (now n : Z) (data : bytes) : Iter :=
  mkIter false now (mkRead n data) (Z.of_nat (length data)) 0.
(** A turn whose clock reading is past any duration used below. *)
Definition late_turn : Iter := mkIter false (1000 + 3600 * second) (mkRead 0 []) 0 0.

Definition cs16_sample (b : Byte.byte) : bytes := [b; b; b; b].

(** * The vocabulary of the properties *)

(** The calls that configure the device or its stream. *)
Definition is_configuration (e : event) : bool :=
  match e with
  | SetSampleRate _ | SetBandwidth _ | SetFrequency _
  | SetDCOffsetMode _ | SetIQBalance _ _ | SetGain _
  | GetStreamMTU | SetupStream _ | ActivateStream => true
  | _ => false
  end.

Definition bin_path (P : Platform) (E : Env) (c : Config) (freq : double) : string :=
  base_path P c freq (now_utc_compact E) +:+ bin_ext P (fmt c).
Definition json_path (P : Platform) (E : Env) (c : Config) (freq : double) : string :=
  base_path P c freq (now_utc_compact E) +:+ ".json".

(** The locals of [main] at line 164. *)
Definition opened_session (P : Platform) (E : Env) (c : Config)
    (front : Kwargs) (freq : double) : Session :=
  mkSession c front freq (now_utc_compact E) (elem_size P (fmt c)) (getStreamMTU E)
    (replicate (Z.to_nat (size_t_wrap (getStreamMTU E * elem_size P (fmt c)))) Byte.x00)
    (bin_path P E c freq) (json_path P E c freq) (clock_t0 E).

(** What a session does on its way there. *)
Definition opening_events (P : Platform) (E : Env) (c : Config)
    (devices : Z) (freq : double) : list event :=
  [ Enumerate (devArgs c);
    Cerr ("Found " +:+ show_int devices +:+ " device(s). Using first." +:+ nl);
    Make (devArgs c);
    SetSampleRate (sampRate c); SetBandwidth (rfBw c); SetFrequency freq;
    SetDCOffsetMode true; SetIQBalance 0.0 0.0; SetGain (gain c);
    GetStreamMTU; SetupStream (fmt c); ActivateStream;
    Fopen (bin_path P E c freq);
    Cerr (capturing_msg P c freq (getStreamMTU E)) ].

(** The environment lets the session through: a device is found and made,
    the channel is supported, the three mandatory setters return, the stream
    is set up and the output file opens. *)
Definition opens (P : Platform) (E : Env) (c : Config)
    (front : Kwargs) (others : list Kwargs) (freq : double) : Prop :=
  enumerate E (devArgs c) = front :: others
  /\ make E (devArgs c) = true
  /\ (forall w, wifi2g_ch_to_hz (wifiCh c) w = (Ok freq, w))
  /\ setSampleRate_throws E = false
  /\ setBandwidth_throws E = false
  /\ setFrequency_throws E = false
  /\ setupStream E (fmt c) = true
  /\ fopen E (bin_path P E c freq) = true.

(** How lines 172-180 sort the return value of [readStream]. *)
Inductive outcome : Type := Timeout | Overflow | Fatal | Success.

Definition classify (P : Platform) (ret : Z) : outcome :=
  if ret =? SOAPY_SDR_TIMEOUT P then Timeout
  else if ret =? SOAPY_SDR_OVERFLOW P then Overflow
  else if ret <? 0 then Fatal
  else Success.

(** Line 167: the duration test of a turn. *)
Definition expired (s : Session) (it : Iter) : bool :=
  double_ge (elapsed_seconds (s_t0 s) (it_now it)) (seconds (s_cfg s)).

Definition after_read (s : Session) (w : World) : World :=
  mkWorld (fs w) (trace w ++ [ReadStream (s_mtu s) 200000]) (g_stop w) (unflushed w).

Definition say (msg : string) (w : World) : World :=
  mkWorld (fs w) (trace w ++ [Cerr msg]) (g_stop w) (unflushed w).



(** The calls and messages of a turn that issued a read and, on success,
    handed all of it to the stream. *)
Definition turn_events (P : Platform) (s : Session) (it : Iter) : list event :=
  ReadStream (s_mtu s) 200000 ::
  match classify P (rd_ret (it_read it)) with
  | Timeout => []
  | Overflow => [Cerr ("[warn] OVERFLOW" +:+ nl)]
  | Fatal => [Cerr ("[err ] readStream ret=" +:+ show_int (rd_ret (it_read it)) +:+ nl)]
  | Success => [Fwrite (s_elemSize s) (rd_ret (it_read it))]
  end.


(** A turn that passes both tests of the loop head. *)
Definition reads (s : Session) (it : Iter) : Prop :=
  it_signal it = false /\ expired s it = false.


(** A read that timed out or overflowed. *)
Definition idle_read (P : Platform) (s : Session) (it : Iter) : Prop :=
  reads s it
  /\ (classify P (rd_ret (it_read it)) = Timeout
      \/ classify P (rd_ret (it_read it)) = Overflow).





(** The files once [fclose] has run. *)
Definition closed_fs (E : Env) (s : Session) (w : World) : gmap string bytes :=
  <[s_binPath s := default [] (fs w !! s_binPath s) ++ last_flush E (unflushed w)]> (fs w).

Definition teardown_events : list event :=
  [DeactivateStream; CloseStream; Unmake; Fclose].

Definition sidecar_of (P : Platform) (s : Session) (total : Z) : string :=
  sidecar_text P (default EmptyString (s_front s !! "label"))
    (default EmptyString (s_front s !! "driver"))
    (s_freq s) (sampRate (s_cfg s)) total (fmt (s_cfg s)) (s_ts s).

Definition closing_events (s : Session) (total : Z) : list event :=
  teardown_events ++
  [ Ofstream (s_jsonPath s);
    Cerr ("Done. Wrote " +:+ show_int total +:+ " samples to " +:+ s_binPath s +:+ nl);
    Cerr ("Sidecar: " +:+ s_jsonPath s +:+ nl) ].

Definition demo_cfg : Config := set_fmt "CS16" (defaults demo_platform).
Definition demo_freq : double := 2437000000%float.
Definition demo_session (E : Env) : Session :=
  opened_session demo_platform E demo_cfg demo_device demo_freq.
Definition demo_opened (E : Env) : World :=
  mkWorld (<[bin_path demo_platform E demo_cfg demo_freq := []]> ∅)
          (opening_events demo_platform E demo_cfg 1 demo_freq) false [].

Definition two_samples : bytes := cs16_sample Byte.x01 ++ cs16_sample Byte.x02.

(** Two reads of two samples each, then the duration is over. *)
Definition steady_script : list Iter :=
  [good_turn 2000 2 two_samples; good_turn 3000 2 two_samples; late_turn].



(** The loop only issues reads and writes and prints messages. *)
Definition loop_event (e : event) : bool :=
  match e with
  | ReadStream _ _ | Fwrite _ _ | Cerr _ => true
  | _ => false
  end.





(** Variations of an environment. *)
Definition with_fopen (E : Env) (f : string -> bool) : Env :=
  mkEnv (enumerate E) (make E) (setSampleRate_throws E) (setBandwidth_throws E)
        (setFrequency_throws E) (setDCOffsetMode_throws E) (setIQBalance_throws E)
        (setGain_throws E) (gmtime E) (getStreamMTU E) (setupStream E) f
        (clock_t0 E) (script E) (ofstream_open E) (fclose_fails E).
Definition with_ofstream (E : Env) (f : string -> bool) : Env :=
  mkEnv (enumerate E) (make E) (setSampleRate_throws E) (setBandwidth_throws E)
        (setFrequency_throws E) (setDCOffsetMode_throws E) (setIQBalance_throws E)
        (setGain_throws E) (gmtime E) (getStreamMTU E) (setupStream E) (fopen E)
        (clock_t0 E) (script E) f (fclose_fails E).
Definition with_corrections (E : Env) (dc iq gn : bool) : Env :=
  mkEnv (enumerate E) (make E) (setSampleRate_throws E) (setBandwidth_throws E)
        (setFrequency_throws E) dc iq gn (gmtime E) (getStreamMTU E) (setupStream E)
        (fopen E) (clock_t0 E) (script E) (ofstream_open E) (fclose_fails E).

(** What a session has done when [fopen] has just failed. *)
Definition refused_events (P : Platform) (E : Env) (c : Config)
    (devices : Z) (freq : double) : list event :=
  [ Enumerate (devArgs c);
    Cerr ("Found " +:+ show_int devices +:+ " device(s). Using first." +:+ nl);
    Make (devArgs c);
    SetSampleRate (sampRate c); SetBandwidth (rfBw c); SetFrequency freq;
    SetDCOffsetMode true; SetIQBalance 0.0 0.0; SetGain (gain c);
    GetStreamMTU; SetupStream (fmt c); ActivateStream;
    Fopen (bin_path P E c freq);
    Cerr ("Failed to open output: " +:+ bin_path P E c freq +:+ nl);
    DeleteDevice ].

Definition is_ofstream (e : event) : bool :=
  match e with Ofstream _ => true | _ => false end.

(** The flags that take a value. *)
Definition value_flag (a : string) : bool :=
  (a =? "--args")%string || (a =? "--chan")%string || (a =? "--rate")%string
  || (a =? "--bw")%string || (a =? "--gain")%string || (a =? "--out")%string
  || (a =? "--secs")%string || (a =? "--fmt")%string.

(** The device is there, the channel is supported and the three mandatory
    setters return. *)
Definition configured (E : Env) (c : Config) (freq : double) : Prop :=
  enumerate E (devArgs c) <> []
  /\ make E (devArgs c) = true
  /\ (forall w, wifi2g_ch_to_hz (wifiCh c) w = (Ok freq, w))
  /\ setSampleRate_throws E = false
  /\ setBandwidth_throws E = false
  /\ setFrequency_throws E = false.

(** The flags whose value goes through [std::stod]. *)
Definition double_flag (a : string) : bool :=
  (a =? "--rate")%string || (a =? "--bw")%string || (a =? "--gain")%string
  || (a =? "--secs")%string.

Definition is_read (e : event) : bool :=
  match e with ReadStream _ _ => true | _ => false end.

(** The number of [readStream] calls in a trace. *)
Definition reads_in (t : list event) : nat := length (List.filter is_read t).


Definition timeout_turn_at (now : Z) : Iter := mkIter false now (mkRead (-1) []) 0 0.

(** A read that reports two samples but stores only one. *)
Definition lazy_turn : Iter := mkIter false 2000 (mkRead 2 (cs16_sample Byte.x07)) 8 0.

Definition signalled_turn : Iter := mkIter true 3000 (mkRead 2 two_samples) 8 0.



Definition acquired_events (c : Config) (devices : Z) : list event :=
  [ Enumerate (devArgs c);
    Cerr ("Found " +:+ show_int devices +:+ " device(s). Using first." +:+ nl);
    Make (devArgs c) ].

Definition picky_env : Env :=
  mkEnv (fun _ => [demo_device]) (fun _ => true)
        false true false false false false
        demo_tm 4 (fun _ => true) (fun _ => true) 1000 steady_script (fun _ => true) None.

(** * Properties *)

(** ** Running statements *)

Lemma bind_ok {A B} (m : M A) (k : A -> M B) (w w' : World) (a : A) :
  m w = (Ok a, w') -> (m ≫= k) w = k a w'.
Proof. intros H. unfold mbind, M_bind. now rewrite H. Qed.

Lemma bind_exit {A B} (m : M A) (k : A -> M B) (w w' : World) (code : Z) :
  m w = (Exit code, w') -> (m ≫= k) w = (Exit code, w').
Proof. intros H. unfold mbind, M_bind. now rewrite H. Qed.

Lemma bind_throw {A B} (m : M A) (k : A -> M B) (w w' : World) :
  m w = (Throw, w') -> (m ≫= k) w = (Throw, w').
Proof. intros H. unfold mbind, M_bind. now rewrite H. Qed.

Lemma bind_emit {B} (e : event) (k : unit -> M B) (w : World) :
  (emit e ≫= k) w = k tt (mkWorld (fs w) (trace w ++ [e]) (g_stop w) (unflushed w)).
Proof. reflexivity. Qed.

Lemma bind_cerr {B} (msg : string) (k : unit -> M B) (w : World) :
  (cerr msg ≫= k) w = k tt (mkWorld (fs w) (trace w ++ [Cerr msg]) (g_stop w) (unflushed w)).
Proof. reflexivity. Qed.

Lemma bind_ret {A B} (a : A) (k : A -> M B) (w : World) :
  (mret a ≫= k) w = k a w.
Proof. reflexivity. Qed.

(** A caught call returns normally whether or not it threw. *)
Lemma try_call (e : event) (throws : bool) (w : World) :
  try_ (call e throws) w = (Ok tt, mkWorld (fs w) (trace w ++ [e]) (g_stop w) (unflushed w)).
Proof. now destruct throws. Qed.

Lemma call_returns (e : event) (w : World) :
  call e false w = (Ok tt, mkWorld (fs w) (trace w ++ [e]) (g_stop w) (unflushed w)).
Proof. reflexivity. Qed.

Lemma call_throws (e : event) (w : World) :
  call e true w = (Throw, mkWorld (fs w) (trace w ++ [e]) (g_stop w) (unflushed w)).
Proof. reflexivity. Qed.

(** ** The channel mapper *)

Lemma channel_in_band (c : Z) (w : World) :
  1 <= c <= 13 ->
  wifi2g_ch_to_hz c w = (Ok (double_of_int (2412000000 + 5000000 * (c - 1))), w)
  /\ double_of_int (2412000000 + 5000000 * (c - 1))
     = (2412e6 + 5e6 * double_of_int (c - 1))%float.
Proof.
  intros Hc.
  assert (Hcases : c = 1 \/ c = 2 \/ c = 3 \/ c = 4 \/ c = 5 \/ c = 6 \/ c = 7
                   \/ c = 8 \/ c = 9 \/ c = 10 \/ c = 11 \/ c = 12 \/ c = 13) by lia.
  repeat (destruct Hcases as [-> | Hcases]); try subst c; split; reflexivity.
Qed.

Lemma channel_out_of_band (c : Z) (w : World) :
  c < 1 \/ 14 < c -> wifi2g_ch_to_hz c w = (Throw, w).
Proof.
  intros Hc. unfold wifi2g_ch_to_hz.
  destruct (1 <=? c) eqn:H1; destruct (c <=? 13) eqn:H2; destruct (c =? 14) eqn:H3;
    simpl; try reflexivity; lia.
Qed.

(** With a channel outside 1-14 a session ends before any configuration
    call: with status 1 when there is no device, by the exception otherwise. *)
Lemma bad_channel_open (P : Platform) (E : Env) (cfg : Config) (w : World) :
  wifiCh cfg < 1 \/ 14 < wifiCh cfg ->
  exists r w', open_session P E cfg w = (r, w')
    /\ (r = Throw \/ r = Exit 1)
    /\ exists evs, trace w' = trace w ++ evs
                   /\ Forall (fun e => is_configuration e = false) evs.
Proof.
  intros Hc. unfold open_session.
  rewrite bind_emit.
  destruct (enumerate E (devArgs cfg)) as [|front others]; cbn zeta.
  - rewrite !bind_cerr. do 2 eexists. split; [reflexivity|]. split; [now right|].
    eexists. cbn [trace]. rewrite <- !app_assoc. split; [reflexivity|]. repeat constructor.
  - rewrite !bind_cerr, !bind_emit.
    destruct (make E (devArgs cfg)); cbn [negb].
    + erewrite bind_throw; [|apply channel_out_of_band, Hc].
      do 2 eexists. split; [reflexivity|]. split; [now left|].
      eexists. cbn [trace]. rewrite <- !app_assoc. split; [reflexivity|]. repeat constructor.
    + rewrite !bind_cerr. do 2 eexists. split; [reflexivity|]. split; [now right|].
      eexists. cbn [trace]. rewrite <- !app_assoc. split; [reflexivity|]. repeat constructor.
Qed.

Lemma bad_channel_session (P : Platform) (E : Env) (cfg : Config) (w : World) :
  wifiCh cfg < 1 \/ 14 < wifiCh cfg ->
  let r := run_session P E cfg w in
  (fst r = Throw \/ fst r = Exit 1)
  /\ exists evs, trace (snd r) = trace w ++ evs
                 /\ Forall (fun e => is_configuration e = false) evs.
Proof.
  intros Hc. destruct (bad_channel_open P E cfg w Hc) as (r & w' & Hopen & Hr & Hevs).
  unfold run_session.
  destruct Hr as [-> | ->].
  - rewrite (bind_throw _ _ _ _ Hopen). cbn [fst snd]. split; [now left|exact Hevs].
  - rewrite (bind_exit _ _ _ _ _ Hopen). cbn [fst snd]. split; [now right|exact Hevs].
Qed.

(** C3. For every channel [c] from 1 to 13 the mapper returns the double
    that is exactly 2412e6 + 5e6*(c-1) Hz, for channel 14 it returns 2484e6 Hz,
    and for every other integer it throws; a session started with such a
    channel then makes no configuration call at all. *)
Theorem channel_mapper_total (c : Z) (w : World) :
  (1 <= c <= 13 ->
     wifi2g_ch_to_hz c w = (Ok (double_of_int (2412000000 + 5000000 * (c - 1))), w)
     /\ double_of_int (2412000000 + 5000000 * (c - 1))
        = (2412e6 + 5e6 * double_of_int (c - 1))%float)
  /\ wifi2g_ch_to_hz 14 w = (Ok 2484e6%float, w)
  /\ (c < 1 \/ 14 < c ->
        wifi2g_ch_to_hz c w = (Throw, w)
        /\ forall (P : Platform) (E : Env) (cfg : Config),
             wifiCh cfg = c ->
             let r := run_session P E cfg w in
             (fst r = Throw \/ fst r = Exit 1)
             /\ exists evs, trace (snd r) = trace w ++ evs
                            /\ Forall (fun e => is_configuration e = false) evs).
Proof.
  split; [apply channel_in_band|]. split; [reflexivity|].
  intros Hc. split; [now apply channel_out_of_band|].
  intros P E cfg Hcfg. apply bad_channel_session. now rewrite Hcfg.
Qed.

(** ** When a session reaches the streaming loop *)

Lemma wifi2g_cases (c : Z) :
  (exists freq, forall w, wifi2g_ch_to_hz c w = (Ok freq, w))
  \/ (forall w, wifi2g_ch_to_hz c w = (Throw, w)).
Proof.
  unfold wifi2g_ch_to_hz.
  destruct ((1 <=? c) && (c <=? 13)); [left; eexists; reflexivity|].
  destruct (c =? 14); [left; eexists; reflexivity | now right].
Qed.

Lemma fopen_wb_opened (E : Env) (path : string) (w : World) :
  fopen E path = true ->
  fopen_wb E path w
  = (Ok true, mkWorld (<[path := []]> (fs w)) (trace w ++ [Fopen path]) (g_stop w) []).
Proof. intros H. unfold fopen_wb. now rewrite H. Qed.

Lemma fopen_wb_refused (E : Env) (path : string) (w : World) :
  fopen E path = false ->
  fopen_wb E path w = (Ok false, mkWorld (fs w) (trace w ++ [Fopen path]) (g_stop w) (unflushed w)).
Proof. intros H. unfold fopen_wb. now rewrite H. Qed.

Ltac mstep := cbv beta iota zeta delta
  [mbind M_bind mret M_ret emit cerr call try_ throw return_ negb
   fs trace g_stop unflushed].

Lemma open_session_ok (P : Platform) (E : Env) (c : Config) (w : World)
    (front : Kwargs) (others : list Kwargs) (freq : double) :
  opens P E c front others freq ->
  open_session P E c w
  = (Ok (opened_session P E c front freq),
     mkWorld (<[bin_path P E c freq := []]> (fs w))
             (trace w ++ opening_events P E c (Z.of_nat (length (front :: others))) freq)
             (g_stop w) []).
Proof.
  intros (Henum & Hmake & Hfreq & Hrate & Hbw & Hfq & Hsetup & Hfopen).
  unfold open_session. rewrite Henum, Hmake, Hrate, Hbw, Hfq, Hsetup.
  mstep. rewrite Hfreq. mstep.
  unfold fopen_wb.
  change (base_path P c freq (now_utc_compact E) +:+ bin_ext P (fmt c)) with (bin_path P E c freq).
  rewrite Hfopen. mstep.
  destruct (setDCOffsetMode_throws E), (setIQBalance_throws E), (setGain_throws E);
   mstep; rewrite <- !app_assoc; reflexivity.
Qed.

Lemma open_session_inv (P : Platform) (E : Env) (c : Config) (w w1 : World) (s : Session) :
  open_session P E c w = (Ok s, w1) ->
  exists front others freq, opens P E c front others freq.
Proof.
  unfold open_session, opens.
  destruct (enumerate E (devArgs c)) as [|front others]; [discriminate|].
  destruct (make E (devArgs c)); [|discriminate].
  mstep.
  destruct (wifi2g_cases (wifiCh c)) as [[freq Hfreq] | Hthrow];
    [rewrite Hfreq | rewrite Hthrow; discriminate].
  mstep.
  destruct (setSampleRate_throws E); [discriminate|].
  destruct (setBandwidth_throws E); [discriminate|].
  destruct (setFrequency_throws E); [discriminate|].
  destruct (setDCOffsetMode_throws E), (setIQBalance_throws E), (setGain_throws E); mstep.
  all: destruct (setupStream E (fmt c)); mstep; [|discriminate].
  all: unfold fopen_wb;
    change (base_path P c freq (now_utc_compact E) +:+ bin_ext P (fmt c))
      with (bin_path P E c freq);
    destruct (fopen E (bin_path P E c freq)) eqn:Hfopen; mstep; [|discriminate].
  all: intros _; exists front, others, freq; repeat split; auto.
Qed.

(** A session that reaches the loop is determined by its configuration and
    environment. *)
Lemma open_session_spec (P : Platform) (E : Env) (c : Config) (w w1 : World) (s : Session) :
  open_session P E c w = (Ok s, w1) ->
  exists front others freq,
    opens P E c front others freq
    /\ s = opened_session P E c front freq
    /\ w1 = mkWorld (<[s_binPath s := []]> (fs w))
                    (trace w ++ opening_events P E c (Z.of_nat (length (front :: others))) freq)
                    (g_stop w) [].
Proof.
  intros H. destruct (open_session_inv _ _ _ _ _ _ H) as (front & others & freq & Hopens).
  exists front, others, freq. split; [exact Hopens|].
  rewrite (open_session_ok _ _ _ w _ _ _ Hopens) in H.
  injection H as <- <-. split; reflexivity.
Qed.

(** ** One turn of the streaming loop *)

Lemma streaming_loop_nil (P : Platform) (s : Session) (buf : bytes) (total : Z) (w : World) :
  streaming_loop P s [] buf total w = (Pending, w).
Proof. reflexivity. Qed.

Lemma streaming_loop_cons (P : Platform) (s : Session) (it : Iter) (rest : list Iter)
    (buf : bytes) (total : Z) (w : World) :
  streaming_loop P s (it :: rest) buf total w =
  let w0 := if it_signal it then sigint_handler w else w in
  if g_stop w0 then (Ok total, w0)
  else if expired s it then (Ok total, w0)
  else
    let ret := rd_ret (it_read it) in
    let buf' := store (rd_data (it_read it)) buf in
    let w1 := after_read s w0 in
    match classify P ret with
    | Timeout => streaming_loop P s rest buf' total w1
    | Overflow => streaming_loop P s rest buf' total (say ("[warn] OVERFLOW" +:+ nl) w1)
    | Fatal => (Ok total, say ("[err ] readStream ret=" +:+ show_int ret +:+ nl) w1)
    | Success =>
      let r := fwrite (s_binPath s) buf' (s_elemSize s) ret
                 (it_accepted it) (it_flushed it) w1 in
      match fst r with
      | Ok wrote =>
        if negb (wrote =? ret)
        then (Ok total, say ("[err ] fwrite short write" +:+ nl) (snd r))
        else streaming_loop P s rest buf' (size_t_wrap (total + ret)) (snd r)
      | _ => r
      end
    end.
Proof.
  cbn [streaming_loop]. unfold expired, classify, after_read, say.
  cbv beta iota zeta delta [mbind M_bind mret M_ret emit cerr deliver g_stop_load readStream].
  destruct w as [files events flag pend].
  destruct (it_signal it); cbn [g_stop sigint_handler fs trace]; [reflexivity|].
  destruct flag; [reflexivity|].
  destruct (double_ge _ _); [reflexivity|].
  destruct (_ =? SOAPY_SDR_TIMEOUT P); [reflexivity|].
  destruct (_ =? SOAPY_SDR_OVERFLOW P); [reflexivity|].
  destruct (_ <? 0); [reflexivity|].
  unfold fwrite. cbn [fst snd].
  destruct (negb _); reflexivity.
Qed.

Lemma classify_success (P : Platform) (ret : Z) :
  classify P ret = Success -> 0 <= ret.
Proof.
  unfold classify. destruct (_ =? _); [discriminate|]. destruct (_ =? _); [discriminate|].
  destruct (ret <? 0) eqn:H; [discriminate|]. lia.
Qed.



Lemma length_store (data buf : bytes) : length (store data buf) = length buf.
Proof. unfold store. rewrite length_take, length_app, length_drop. lia. Qed.


Lemma fwrite_full (path : string) (buf : bytes) (size count accepted flushed : Z) (w : World) :
  0 < size -> 0 <= count ->
  size * count <= Z.of_nat (length buf) ->
  size * count <= accepted ->
  let queued := unflushed w ++ take (Z.to_nat (size * count)) buf in
  fwrite path buf size count accepted flushed w
  = (Ok count,
     mkWorld (<[path := default [] (fs w !! path) ++ take (Z.to_nat flushed) queued]> (fs w))
             (trace w ++ [Fwrite size count]) (g_stop w)
             (drop (Z.to_nat flushed) queued)).
Proof.
  intros Hsize Hcount Hbuf Hacc queued. subst queued. unfold fwrite.
  rewrite (take_ge (take _ buf)) by (rewrite length_take; lia).
  rewrite length_take, Nat.min_l by lia.
  rewrite Z2Nat.id by lia.
  replace (size * count / size) with count by (rewrite Z.mul_comm, Z.div_mul; lia).
  reflexivity.
Qed.


(** The four ways a turn that issued a read goes on. *)
Lemma turn_idle (P : Platform) (s : Session) (it : Iter) (rest : list Iter)
    (buf : bytes) (total : Z) (w : World) :
  g_stop w = false -> idle_read P s it ->
  streaming_loop P s (it :: rest) buf total w
  = streaming_loop P s rest (store (rd_data (it_read it)) buf) total
      (mkWorld (fs w) (trace w ++ turn_events P s it) false (unflushed w)).
Proof.
  intros Hw ((Hsig & Hexp) & Hk). rewrite streaming_loop_cons, Hsig. cbv zeta.
  rewrite Hw, Hexp. unfold turn_events, after_read, say.
  destruct Hk as [-> | ->]; cbn [fs trace g_stop unflushed]; rewrite ?Hw, <- ?app_assoc; reflexivity.
Qed.



Lemma turn_cancelled (P : Platform) (s : Session) (it : Iter) (rest : list Iter)
    (buf : bytes) (total : Z) (w : World) :
  it_signal it = true \/ g_stop w = true ->
  streaming_loop P s (it :: rest) buf total w
  = (Ok total, mkWorld (fs w) (trace w) true (unflushed w)).
Proof.
  intros H. rewrite streaming_loop_cons. cbv zeta.
  destruct (it_signal it); [reflexivity|].
  destruct H as [H|H]; [discriminate|]. rewrite H. destruct w; cbn in *. now subst.
Qed.

Lemma turn_expired (P : Platform) (s : Session) (it : Iter) (rest : list Iter)
    (buf : bytes) (total : Z) (w : World) :
  it_signal it = false -> g_stop w = false -> expired s it = true ->
  streaming_loop P s (it :: rest) buf total w = (Ok total, w).
Proof.
  intros Hsig Hw Hexp. rewrite streaming_loop_cons, Hsig. cbv zeta. now rewrite Hw, Hexp.
Qed.

(** ** Several turns *)








(** ** Teardown and sidecar *)

Lemma finish_spec (P : Platform) (E : Env) (s : Session) (total : Z) (w : World) :
  finish P E s total w
  = (Exit 0,
     mkWorld (if ofstream_open E (s_jsonPath s)
              then <[s_jsonPath s := list_byte_of_string (sidecar_of P s total)]>
                     (closed_fs E s w)
              else closed_fs E s w)
             (trace w ++ closing_events s total) (g_stop w) []).
Proof.
  unfold finish. rewrite !bind_emit.
  unfold mbind, M_bind, fclose, write_sidecar_json, cerr, emit, return_, closing_events,
    teardown_events, sidecar_of, closed_fs.
  cbn [fs trace g_stop unflushed]. rewrite <- !app_assoc. reflexivity.
Qed.


Lemma closed_others (E : Env) (s : Session) (w : World) (p : string) :
  p <> s_binPath s -> closed_fs E s w !! p = fs w !! p.
Proof. intros H. unfold closed_fs. now rewrite lookup_insert_ne by auto. Qed.

Lemma append_inj_l (base x y : string) : base +:+ x = base +:+ y -> x = y.
Proof. induction base as [|a base IH]; cbn; intros H; [exact H|]. injection H as H. auto. Qed.

Lemma paths_differ (P : Platform) (E : Env) (c : Config) (freq : double) :
  bin_path P E c freq <> json_path P E c freq.
Proof.
  unfold bin_path, json_path, bin_ext. intros H. apply append_inj_l in H.
  destruct (_ =? _)%string; discriminate.
Qed.



(** A session that got through the loop ends with status 0. *)
Lemma run_session_finished (P : Platform) (E : Env) (c : Config) (w w1 w2 : World)
    (s : Session) (total : Z) :
  open_session P E c w = (Ok s, w1) ->
  streaming_loop P s (script E) (s_buffer s) 0 w1 = (Ok total, w2) ->
  run_session P E c w
  = (Exit 0,
     mkWorld (if ofstream_open E (s_jsonPath s)
              then <[s_jsonPath s := list_byte_of_string (sidecar_of P s total)]>
                     (closed_fs E s w2)
              else closed_fs E s w2)
             (trace w2 ++ closing_events s total) (g_stop w2) []).
Proof.
  intros Hopen Hloop. unfold run_session.
  rewrite (bind_ok _ _ _ _ _ Hopen), (bind_ok _ _ _ _ _ Hloop). apply finish_spec.
Qed.

(** ** The file and the count *)



(** The sidecar writer does not touch the binary file. *)
Lemma sidecar_keeps_binary (E : Env) (s : Session) (w : World) (g : bool) (text : bytes) :
  s_binPath s <> s_jsonPath s ->
  (if g then <[s_jsonPath s := text]> (closed_fs E s w) else closed_fs E s w) !! s_binPath s
  = closed_fs E s w !! s_binPath s.
Proof. intros H. destruct g; [now rewrite lookup_insert_ne by auto | reflexivity]. Qed.



(** *** The model at work: a CS16 capture on channel 6 *)

Lemma demo_open (turns : list Iter) :
  open_session demo_platform (demo_env turns) demo_cfg (boot ∅)
  = (Ok (demo_session (demo_env turns)), demo_opened (demo_env turns)).
Proof. vm_compute. reflexivity. Qed.



(** ** Doubles: comparisons and NaN *)

Lemma SFcompare_antisym (a b : spec_float) (c : comparison) :
  SFcompare a b = Some c -> SFcompare b a = Some (CompOpp c).
Proof.
  destruct a as [sa|sa| |sa ma ea], b as [sb|sb| |sb mb eb]; cbn;
    try discriminate; intros [= <-];
    try (destruct sa; reflexivity); try (destruct sb; reflexivity);
    try (destruct sa, sb; reflexivity).
  destruct sa, sb; try reflexivity;
    rewrite (Z.compare_antisym ea eb); destruct (ea ?= eb); cbn; try reflexivity;
    rewrite ?CompOpp_involutive, ?Pos.compare_cont_antisym; reflexivity.
Qed.

Lemma SFcompare_nan (a b : spec_float) :
  SFcompare a b = None -> a = S754_nan \/ b = S754_nan.
Proof.
  destruct a as [sa|sa| |sa ma ea], b as [sb|sb| |sb mb eb]; cbn; try discriminate; auto.
Qed.

Lemma SFcompare_refl (a : spec_float) : a <> S754_nan -> SFcompare a a = Some Eq.
Proof.
  destruct a as [sa|sa| |sa ma ea]; cbn; try congruence; intros _.
  - now destruct sa.
  - destruct sa; rewrite Z.compare_refl, Pos.compare_cont_refl; reflexivity.
Qed.

Lemma is_nan_spec (x : double) : is_nan x = false <-> Prim2SF x <> S754_nan.
Proof.
  unfold is_nan. rewrite FloatAxioms.eqb_spec. unfold SFeqb. split.
  - intros H Hn. rewrite Hn in H. discriminate.
  - intros H. now rewrite SFcompare_refl.
Qed.

(** [x < y] excludes [x >= y]. *)
Lemma below_not_reached (x y : double) : (x <? y)%float = true -> double_ge x y = false.
Proof.
  unfold double_ge. rewrite FloatAxioms.ltb_spec, FloatAxioms.leb_spec. unfold SFltb, SFleb.
  destruct (SFcompare (Prim2SF x) (Prim2SF y)) as [[]|] eqn:H; try discriminate.
  intros _. now rewrite (SFcompare_antisym _ _ _ H).
Qed.

(** Between numbers, [x >= y] is the negation of [x < y]. *)
Lemma not_below_reached (x y : double) :
  is_nan x = false -> is_nan y = false ->
  (x <? y)%float = false -> double_ge x y = true.
Proof.
  rewrite !is_nan_spec. unfold double_ge. rewrite FloatAxioms.ltb_spec, FloatAxioms.leb_spec. unfold SFltb, SFleb.
  intros Hx Hy.
  destruct (SFcompare (Prim2SF x) (Prim2SF y)) as [[]|] eqn:H; try discriminate; intros _.
  - now rewrite (SFcompare_antisym _ _ _ H).
  - now rewrite (SFcompare_antisym _ _ _ H).
  - destruct (SFcompare_nan _ _ H); contradiction.
Qed.

(** Rounding a non-negative mantissa never makes a NaN. *)
Lemma shr_1_nonneg (mrs : shr_record) : 0 <= shr_m mrs -> 0 <= shr_m (shr_1 mrs).
Proof. destruct mrs as [[|[p|p|]|p] r s]; cbn; lia. Qed.

Lemma iter_pos_nonneg (n : positive) :
  forall mrs, 0 <= shr_m mrs -> 0 <= shr_m (SpecFloat.iter_pos shr_1 n mrs).
Proof.
  induction n as [n IH|n IH|]; intros mrs H; cbn.
  - apply IH, IH, shr_1_nonneg, H.
  - apply IH, IH, H.
  - apply shr_1_nonneg, H.
Qed.

Lemma shr_fexp_nonneg (m e : Z) (l : location) :
  0 <= m -> 0 <= shr_m (fst (shr_fexp prec emax m e l)).
Proof.
  intros H. unfold shr_fexp, shr.
  assert (H0 : 0 <= shr_m (shr_record_of_loc m l)) by (destruct l as [|[]]; exact H).
  destruct (_ - e) as [|p|p]; cbn [fst]; auto using iter_pos_nonneg.
Qed.

Lemma binary_round_aux_not_nan (sx : bool) (mx ex : Z) (lx : location) :
  0 <= mx -> binary_round_aux prec emax sx mx ex lx <> S754_nan.
Proof.
  intros H. unfold binary_round_aux.
  pose proof (shr_fexp_nonneg mx ex lx H) as H1.
  destruct (shr_fexp prec emax mx ex lx) as [mrs' e']. cbn [fst] in H1.
  set (m2 := round_nearest_even _ _).
  assert (H2 : 0 <= m2).
  { subst m2. unfold round_nearest_even.
    destruct (loc_of_shr_record mrs') as [|[]]; try destruct (Z.even _); lia. }
  pose proof (shr_fexp_nonneg m2 e' loc_Exact H2) as H3.
  destruct (shr_fexp prec emax m2 e' loc_Exact) as [mrs'' e'']. cbn [fst] in H3.
  destruct (shr_m mrs'') as [|p|p]; [discriminate| |lia].
  destruct (_ <=? _); discriminate.
Qed.

Lemma of_uint63_not_nan (n : int) : Prim2SF (of_uint63 n) <> S754_nan.
Proof.
  rewrite FloatAxioms.of_uint63_spec. unfold binary_normalize.
  destruct (φ n)%uint63 as [|p|p]; [discriminate| |];
    unfold binary_round; destruct (shl_align _ _ _) as [mz ez];
    apply binary_round_aux_not_nan; lia.
Qed.

Lemma double_of_int_not_nan (z : Z) : Prim2SF (double_of_int z) <> S754_nan.
Proof.
  unfold double_of_int. destruct (z <? 0); [|apply of_uint63_not_nan].
  rewrite FloatAxioms.opp_spec. pose proof (of_uint63_not_nan (Uint63.of_Z (- z))) as H.
  destruct (Prim2SF (of_uint63 (Uint63.of_Z (- z)))); cbn; congruence.
Qed.

Lemma SFdiv_core_nonneg (m1 m2 : positive) (e1 e2 : Z) :
  0 <= fst (fst (SFdiv_core_binary prec emax (Z.pos m1) e1 (Z.pos m2) e2)).
Proof.
  unfold SFdiv_core_binary. cbv zeta.
  set (m' := match _ with Z.pos _ => _ | 0 => _ | Z.neg _ => _ end).
  assert (Hm : 0 <= m').
  { subst m'. destruct (_ - _ - _) as [|p|p]; try lia. apply Z.shiftl_nonneg. lia. }
  pose proof (Z.div_eucl_eq m' (Z.pos m2)) as Hq.
  pose proof (Z.mod_pos_bound m' (Z.pos m2)) as Hr.
  unfold Z.modulo in Hr.
  destruct (Z.div_eucl m' (Z.pos m2)) as [q r]. cbn [fst]. 
  specialize (Hq ltac:(lia)). specialize (Hr ltac:(lia)). nia.
Qed.

(** The elapsed time is a number. *)
Lemma elapsed_not_nan (t0 now : Z) : is_nan (elapsed_seconds t0 now) = false.
Proof.
  apply is_nan_spec. unfold elapsed_seconds. rewrite FloatAxioms.div_spec.
  pose proof (double_of_int_not_nan (now - t0)) as H.
  replace (Prim2SF 1e9%float) with (S754_finite false 8388608000000000 (-23))
    by (vm_compute; reflexivity).
  unfold SF64div, SFdiv.
  destruct (Prim2SF (double_of_int (now - t0))) as [sa|sa| |sa ma ea]; try discriminate;
    [congruence|].
  pose proof (SFdiv_core_nonneg ma 8388608000000000 ea (-23)) as Hq.
  destruct (SFdiv_core_binary _ _ _ _ _ _) as [[mz ez] lz]. cbn [fst] in Hq.
  now apply binary_round_aux_not_nan.
Qed.

(** ** What the loop adds to the trace *)

Lemma loop_trace (P : Platform) (s : Session) (turns : list Iter) :
  forall (buf : bytes) (total : Z) (w : World),
    exists evs,
      trace (snd (streaming_loop P s turns buf total w)) = trace w ++ evs
      /\ Forall (fun e => loop_event e = true) evs.
Proof.
  induction turns as [|it turns IH]; intros buf total w.
  - exists []. split; [cbn; now rewrite app_nil_r | constructor].
  - rewrite streaming_loop_cons. cbv zeta.
    set (w0 := if it_signal it then sigint_handler w else w).
    assert (H0 : trace w0 = trace w) by (subst w0; now destruct (it_signal it)).
    destruct (g_stop w0); [exists []; split; [cbn; now rewrite app_nil_r, H0 | constructor]|].
    destruct (expired s it); [exists []; split; [cbn; now rewrite app_nil_r, H0 | constructor]|].
    destruct (classify P (rd_ret (it_read it))).
    + destruct (IH (store (rd_data (it_read it)) buf) total (after_read s w0)) as (evs & -> & Hevs).
      eexists. cbn [trace after_read]. rewrite H0, <- app_assoc. split; [reflexivity|].
      now constructor.
    + destruct (IH (store (rd_data (it_read it)) buf) total
                  (say ("[warn] OVERFLOW" +:+ nl) (after_read s w0))) as (evs & -> & Hevs).
      eexists. cbn [trace after_read say]. rewrite H0, <- !app_assoc. split; [reflexivity|].
      now repeat constructor.
    + eexists. cbn [snd trace after_read say]. rewrite H0, <- !app_assoc.
      split; [reflexivity|]. now repeat constructor.
    + unfold fwrite. cbn [fst snd].
      destruct (negb _).
      * eexists. cbn [snd trace after_read say]. rewrite H0, <- !app_assoc.
        split; [reflexivity|]. now repeat constructor.
      * match goal with
        | |- context [streaming_loop P s turns ?b ?t ?w1] =>
          destruct (IH b t w1) as (evs & -> & Hevs)
        end.
        eexists. cbn [trace after_read]. rewrite H0, <- !app_assoc. split; [reflexivity|].
        now repeat constructor.
Qed.

(** A turn that passes the loop head issues its read first. *)
Lemma turn_issues_read (P : Platform) (s : Session) (it : Iter) (rest : list Iter)
    (buf : bytes) (total : Z) (w : World) :
  g_stop w = false -> reads s it ->
  exists evs,
    trace (snd (streaming_loop P s (it :: rest) buf total w))
    = trace w ++ ReadStream (s_mtu s) 200000 :: evs.
Proof.
  intros Hw (Hsig & Hexp). rewrite streaming_loop_cons, Hsig. cbv zeta. rewrite Hw, Hexp.
  destruct (classify P (rd_ret (it_read it))).
  - destruct (loop_trace P s rest (store (rd_data (it_read it)) buf) total (after_read s w))
      as (evs & -> & _).
    exists evs. cbn [trace after_read]. now rewrite <- app_assoc.
  - destruct (loop_trace P s rest (store (rd_data (it_read it)) buf) total
                (say ("[warn] OVERFLOW" +:+ nl) (after_read s w))) as (evs & -> & _).
    eexists. cbn [trace after_read say]. rewrite <- !app_assoc. reflexivity.
  - eexists. cbn [snd trace after_read say]. rewrite <- !app_assoc. reflexivity.
  - unfold fwrite. cbn [fst snd]. destruct (negb _).
    + eexists. cbn [snd trace after_read say]. rewrite <- !app_assoc. reflexivity.
    + match goal with
      | |- context [streaming_loop P s rest ?b ?t ?w1] =>
        destruct (loop_trace P s rest b t w1) as (evs & -> & _)
      end.
      eexists. cbn [trace after_read]. rewrite <- !app_assoc. reflexivity.
Qed.

(** ** Overflow *)




(** ** Fatal read errors *)



(** ** The loop head *)

(** C6. For a configured duration that is a number, a turn of the loop
    issues a read exactly when the flag is unset (no signal arrived, none was
    pending) and the elapsed time is below the duration.  Once the flag is
    set the loop ends without any further call, whatever the rest of the
    script; reaching the duration ends it the same way, and [finish] does the
    same from both exits. *)
Theorem loop_guard (P : Platform) (E : Env) (s : Session) (it : Iter) (rest : list Iter)
    (buf : bytes) (total : Z) (w : World) :
  is_nan (seconds (s_cfg s)) = false ->
  let r := streaming_loop P s (it :: rest) buf total w in
  let cancelled := it_signal it || g_stop w in
  let below := (elapsed_seconds (s_t0 s) (it_now it) <? seconds (s_cfg s))%float in
  let flagged := mkWorld (fs w) (trace w) true (unflushed w) in
  (cancelled = true -> r = (Ok total, flagged))
  /\ (cancelled = false -> below = false -> r = (Ok total, w))
  /\ (cancelled = false -> below = true ->
        exists evs, trace (snd r) = trace w ++ ReadStream (s_mtu s) 200000 :: evs)
  /\ (forall evs, trace (snd r) = trace w ++ ReadStream (s_mtu s) 200000 :: evs ->
        cancelled = false /\ below = true)
  /\ (fst (finish P E s total flagged) = fst (finish P E s total w)
      /\ fs (snd (finish P E s total flagged)) = fs (snd (finish P E s total w))
      /\ trace (snd (finish P E s total flagged)) = trace (snd (finish P E s total w))).
Proof.
  intros Hnum r cancelled below flagged.
  assert (Hcancel : cancelled = true -> r = (Ok total, flagged)).
  { intros H. apply turn_cancelled. subst cancelled.
    apply orb_true_iff in H. exact H. }
  assert (Hlate : cancelled = false -> below = false -> r = (Ok total, w)).
  { intros H Hb. subst cancelled. apply orb_false_iff in H as [Hsig Hw].
    apply turn_expired; auto. unfold expired.
    apply not_below_reached; auto using elapsed_not_nan. }
  assert (Happ : forall (l : list event) (e : event) (evs : list event), l <> l ++ e :: evs).
  { intros l e evs H. apply (f_equal length) in H. rewrite length_app in H. cbn in H. lia. }
  rewrite !finish_spec. cbn [fst snd fs trace].
  repeat split.
  - exact Hcancel.
  - exact Hlate.
  - intros H Hb. subst cancelled. apply orb_false_iff in H as [Hsig Hw].
    apply turn_issues_read; auto. split; [exact Hsig|].
    unfold expired. now apply below_not_reached.
  - destruct cancelled; [|reflexivity].
    rewrite Hcancel in H by reflexivity. cbn in H. now apply Happ in H.
  - destruct cancelled eqn:Hc; [rewrite Hcancel in H by reflexivity; cbn in H;
                                 now apply Happ in H|].
    destruct below eqn:Hb; [reflexivity|].
    rewrite Hlate in H by reflexivity. cbn in H. now apply Happ in H.
Qed.

Lemma loop_guard_witness :
  let E := demo_env steady_script in
  let s := demo_session E in
  streaming_loop demo_platform s [late_turn] (s_buffer s) 0 (demo_opened E)
  = (Ok 0, demo_opened E).
Proof.
  intros E s.
  apply (loop_guard demo_platform E s late_turn [] (s_buffer s) 0 (demo_opened E));
    vm_compute; reflexivity.
Defined.

(** ** Teardown *)

(** Every way out of the loop runs the four teardown calls in order. *)
Lemma loop_exit_teardown (P : Platform) (E : Env) (c : Config) (w w1 w2 : World)
    (s : Session) (total : Z) :
  open_session P E c w = (Ok s, w1) ->
  streaming_loop P s (script E) (s_buffer s) 0 w1 = (Ok total, w2) ->
  exists evs,
    trace (snd (run_session P E c w))
    = trace w2 ++ [DeactivateStream; CloseStream; Unmake; Fclose] ++ evs.
Proof.
  intros Hopen Hloop. rewrite (run_session_finished _ _ _ _ _ _ _ _ Hopen Hloop).
  eexists. reflexivity.
Qed.

(** The run when the output file does not open. *)
Lemma run_session_fopen_refused (P : Platform) (E : Env) (c : Config) (w : World)
    (front : Kwargs) (others : list Kwargs) (freq : double) :
  enumerate E (devArgs c) = front :: others ->
  make E (devArgs c) = true ->
  (forall w', wifi2g_ch_to_hz (wifiCh c) w' = (Ok freq, w')) ->
  setSampleRate_throws E = false ->
  setBandwidth_throws E = false ->
  setFrequency_throws E = false ->
  setupStream E (fmt c) = true ->
  fopen E (bin_path P E c freq) = false ->
  run_session P E c w
  = (Exit 1,
     mkWorld (fs w)
             (trace w ++ refused_events P E c (Z.of_nat (length (front :: others))) freq)
             (g_stop w) (unflushed w)).
Proof.
  intros Henum Hmake Hfreq Hrate Hbw Hfq Hsetup Hfopen.
  unfold run_session, open_session. rewrite Henum, Hmake, Hrate, Hbw, Hfq, Hsetup.
  mstep. rewrite Hfreq. mstep.
  unfold fopen_wb.
  change (base_path P c freq (now_utc_compact E) +:+ bin_ext P (fmt c))
    with (bin_path P E c freq).
  rewrite Hfopen. mstep.
  destruct (setDCOffsetMode_throws E), (setIQBalance_throws E), (setGain_throws E);
    mstep; unfold refused_events; rewrite <- !app_assoc; reflexivity.
Qed.

(** C2, where the code departs from it. When the stream has been activated
    and the binary file then fails to open, [main] prints the failure and
    returns 1 at once: the stream is neither deactivated nor closed and the
    device is not handed back with [unmake]; only the destructor of the
    [unique_ptr] runs. *)
Theorem fopen_failure_skips_teardown (P : Platform) (E : Env) (c : Config) (w : World)
    (front : Kwargs) (others : list Kwargs) (freq : double) :
  enumerate E (devArgs c) = front :: others ->
  make E (devArgs c) = true ->
  (forall w', wifi2g_ch_to_hz (wifiCh c) w' = (Ok freq, w')) ->
  setSampleRate_throws E = false ->
  setBandwidth_throws E = false ->
  setFrequency_throws E = false ->
  setupStream E (fmt c) = true ->
  fopen E (bin_path P E c freq) = false ->
  let r := run_session P E c w in
  let done := refused_events P E c (Z.of_nat (length (front :: others))) freq in
  r = (Exit 1, mkWorld (fs w) (trace w ++ done) (g_stop w) (unflushed w))
  /\ In ActivateStream done
  /\ ~ In DeactivateStream done /\ ~ In CloseStream done /\ ~ In Unmake done.
Proof.
  intros Henum Hmake Hfreq Hrate Hbw Hfq Hsetup Hfopen r done. subst r done.
  split; [now apply run_session_fopen_refused|].
  unfold refused_events. cbn [In].
  repeat split; [tauto | | |]; intros H; repeat (destruct H as [H|H]; [discriminate|]);
    exact H.
Qed.

Lemma fopen_failure_skips_teardown_witness :
  let E := with_fopen (demo_env steady_script) (fun _ => false) in
  let r := run_session demo_platform E demo_cfg (boot ∅) in
  let done := refused_events demo_platform E demo_cfg 1 demo_freq in
  r = (Exit 1, mkWorld ∅ ([] ++ done) false [])
  /\ In ActivateStream done
  /\ ~ In DeactivateStream done /\ ~ In CloseStream done /\ ~ In Unmake done.
Proof.
  intros E r done.
  apply (fopen_failure_skips_teardown demo_platform E demo_cfg (boot ∅) demo_device []
           demo_freq); reflexivity.
Defined.

(** ** Best-effort corrections *)

Lemma open_session_corrections (P : Platform) (E : Env) (c : Config) (w : World)
    (dc iq gn : bool) :
  open_session P (with_corrections E dc iq gn) c w = open_session P E c w.
Proof.
  unfold open_session, with_corrections, now_utc_compact, fopen_wb.
  cbn [enumerate make setSampleRate_throws setBandwidth_throws setFrequency_throws
       setDCOffsetMode_throws setIQBalance_throws setGain_throws gmtime getStreamMTU
       setupStream fopen clock_t0].
  destruct dc, iq, gn, (setDCOffsetMode_throws E), (setIQBalance_throws E),
    (setGain_throws E); reflexivity.
Qed.

Lemma run_session_corrections (P : Platform) (E : Env) (c : Config) (w : World)
    (dc iq gn : bool) :
  run_session P (with_corrections E dc iq gn) c w = run_session P E c w.
Proof.
  unfold run_session. unfold mbind at 1 3, M_bind.
  rewrite open_session_corrections. reflexivity.
Qed.

(** C8. Each of the three best-effort calls returns normally whether the
    driver threw or not, and the whole run (exit status, files, calls and
    messages) is the same whichever of them fail. *)
Theorem corrections_never_abort (P : Platform) (E : Env) (argv : list string) (w : World)
    (dc iq gn : bool) :
  (forall (throws : bool) (w' : World),
     try_ (call (SetDCOffsetMode true) throws) w'
     = (Ok tt, mkWorld (fs w') (trace w' ++ [SetDCOffsetMode true]) (g_stop w') (unflushed w'))
     /\ try_ (call (SetIQBalance 0.0 0.0) throws) w'
        = (Ok tt, mkWorld (fs w') (trace w' ++ [SetIQBalance 0.0 0.0]) (g_stop w') (unflushed w'))
     /\ forall g, try_ (call (SetGain g) throws) w'
                  = (Ok tt, mkWorld (fs w') (trace w' ++ [SetGain g]) (g_stop w') (unflushed w')))
  /\ main P (with_corrections E dc iq gn) argv w = main P E argv w.
Proof.
  split; [intros; repeat split; intros; apply try_call|].
  unfold main, mbind, M_bind.
  destruct (parse_cli P argv (defaults P) w) as [[c| | |] w0]; try reflexivity.
  apply run_session_corrections.
Qed.

(** ** The sidecar *)

Lemma open_session_ofstream (P : Platform) (E : Env) (c : Config) (w : World)
    (f : string -> bool) :
  open_session P (with_ofstream E f) c w = open_session P E c w.
Proof. reflexivity. Qed.

Lemma loop_event_not_ofstream (evs : list event) :
  Forall (fun e => loop_event e = true) evs -> Forall (fun e => is_ofstream e = false) evs.
Proof. intros H. eapply Forall_impl; [exact H|]. now intros []. Qed.

(** C9, as amended. In a session that got through the loop the sidecar
    writer runs exactly once, right after [fclose] and with the final count.
    Whether its path opens or not changes nothing else: the exit status is 0,
    the calls and messages are the same (a failure is not reported), and the
    binary file is the one that [fclose] left. *)
Theorem sidecar_once_after_close (P : Platform) (E : Env) (c : Config) (w w1 w2 : World)
    (s : Session) (total : Z) :
  open_session P E c w = (Ok s, w1) ->
  streaming_loop P s (script E) (s_buffer s) 0 w1 = (Ok total, w2) ->
  Forall (fun e => is_ofstream e = false) (trace w) ->
  let r := run_session P E c w in
  let tail := [ Fclose; Ofstream (s_jsonPath s);
                Cerr ("Done. Wrote " +:+ show_int total +:+ " samples to "
                      +:+ s_binPath s +:+ nl);
                Cerr ("Sidecar: " +:+ s_jsonPath s +:+ nl) ] in
  exit_code r = Some 0
  /\ (exists before,
        trace (snd r) = before ++ tail /\ Forall (fun e => is_ofstream e = false) before)
  /\ (ofstream_open E (s_jsonPath s) = true ->
        fs (snd r) !! s_jsonPath s = Some (list_byte_of_string (sidecar_of P s total)))
  /\ (ofstream_open E (s_jsonPath s) = false -> fs (snd r) = closed_fs E s w2)
  /\ fs (snd r) !! s_binPath s = closed_fs E s w2 !! s_binPath s
  /\ (forall f : string -> bool,
        let r' := run_session P (with_ofstream E f) c w in
        fst r' = fst r /\ trace (snd r') = trace (snd r)
        /\ fs (snd r') !! s_binPath s = fs (snd r) !! s_binPath s).
Proof.
  intros Hopen Hloop Hclean r tail. subst r tail.
  destruct (open_session_spec _ _ _ _ _ _ Hopen) as (front & others & freq & Hopens & Hs & Hw1).
  assert (Hneq : s_binPath s <> s_jsonPath s) by (rewrite Hs; apply paths_differ).
  rewrite (run_session_finished _ _ _ _ _ _ _ _ Hopen Hloop).
  unfold exit_code. cbn [fst snd fs trace].
  split; [reflexivity|]. split.
  - destruct (loop_trace P s (script E) (s_buffer s) 0 w1) as (evs & Htr & Hevs).
    rewrite Hloop in Htr. cbn [snd] in Htr.
    exists (trace w2 ++ [DeactivateStream; CloseStream; Unmake]).
    split; [unfold closing_events, teardown_events; now rewrite <- !app_assoc|].
    rewrite Htr, Hw1. cbn [trace].
    repeat apply Forall_app_2; auto using loop_event_not_ofstream;
      unfold opening_events; repeat constructor.
  - split; [intros ->; apply lookup_insert_eq|].
    split; [now intros ->|]. split; [now apply sidecar_keeps_binary|].
    intros f.
    assert (Hopen' : open_session P (with_ofstream E f) c w = (Ok s, w1)) by exact Hopen.
    assert (Hloop' : streaming_loop P s (script (with_ofstream E f)) (s_buffer s) 0 w1
                     = (Ok total, w2)) by exact Hloop.
    rewrite (run_session_finished _ _ _ _ _ _ _ _ Hopen' Hloop').
    cbn [fst snd fs trace]. split; [reflexivity|]. split; [reflexivity|].
    rewrite !sidecar_keeps_binary by exact Hneq. reflexivity.
Qed.

Lemma sidecar_once_after_close_witness :
  let E := with_ofstream (demo_env steady_script) (fun _ => false) in
  let s := demo_session E in
  let r := run_session demo_platform E demo_cfg (boot ∅) in
  exit_code r = Some 0
  /\ fs (snd r) !! s_jsonPath s = None
  /\ fs (snd r) !! s_binPath s = Some (two_samples ++ two_samples).
Proof.
  intros E s r.
  pose (w2 := snd (streaming_loop demo_platform s (script E) (s_buffer s) 0 (demo_opened E))).
  destruct (sidecar_once_after_close demo_platform E demo_cfg (boot ∅) (demo_opened E) w2 s 4)
    as (Hexit & _ & _ & Hsame & Hbin & _);
    [vm_compute; reflexivity | vm_compute; reflexivity | constructor |].
  split; [exact Hexit|]. split.
  - fold r in Hsame. rewrite Hsame by reflexivity. vm_compute. reflexivity.
  - fold r in Hbin. rewrite Hbin. vm_compute. reflexivity.
Defined.

(** C9 as stated fails where it says that the failure is reported: with a
    sidecar path that does not open, standard error carries the very same
    messages as with one that does, the last of them naming the sidecar, and
    no sidecar exists afterwards. *)
Lemma sidecar_failure_is_silent :
  let E := demo_env steady_script in
  let E' := with_ofstream E (fun _ => false) in
  let r := main demo_platform E ["--fmt"; "CS16"] (boot ∅) in
  let r' := main demo_platform E' ["--fmt"; "CS16"] (boot ∅) in
  exit_code r' = Some 0
  /\ fs (snd r') !! s_jsonPath (demo_session E') = None
  /\ stderr_of (trace (snd r')) = stderr_of (trace (snd r))
  /\ last (stderr_of (trace (snd r')))
     = Some ("Sidecar: " +:+ s_jsonPath (demo_session E') +:+ nl).
Proof.
  intros E E' r r'.
  split; [vm_compute; reflexivity|]. split; [vm_compute; reflexivity|].
  split; vm_compute; reflexivity.
Qed.

(** ** The sample format *)



(** ** The command line and the exit status *)

Lemma value_flag_cases (a : string) :
  value_flag a = true ->
  a = "--args" \/ a = "--chan" \/ a = "--rate" \/ a = "--bw" \/ a = "--gain"
  \/ a = "--out" \/ a = "--secs" \/ a = "--fmt".
Proof. unfold value_flag. rewrite !orb_true_iff, !String.eqb_eq. tauto. Qed.

Lemma parse_cli_missing (P : Platform) (a : string) (c : Config) (w : World) :
  value_flag a = true ->
  parse_cli P [a] c w = (Exit 2, say ("Missing value for " +:+ a +:+ nl) w).
Proof.
  intros H.
  destruct (value_flag_cases a H) as [-> | [-> | [-> | [-> | [-> | [-> | [-> | ->]]]]]]];
    vm_compute; reflexivity.
Qed.

Ltac run_flag := intros; cbn [parse_cli String.eqb Ascii.eqb Bool.eqb];
                 unfold mbind, M_bind, parse_with.

Lemma parse_cli_text_flag (P : Platform) (v : string) (c : Config) :
  (forall rest w, parse_cli P ("--args" :: v :: rest) c w = parse_cli P rest (set_devArgs v c) w)
  /\ (forall rest w, parse_cli P ("--out" :: v :: rest) c w = parse_cli P rest (set_outDir v c) w)
  /\ (forall rest w, parse_cli P ("--fmt" :: v :: rest) c w = parse_cli P rest (set_fmt v c) w).
Proof. repeat split; run_flag; reflexivity. Qed.

Lemma parse_cli_chan (P : Platform) (v : string) (c : Config) (rest : list string) (w : World) :
  parse_cli P ("--chan" :: v :: rest) c w
  = match stoi P v with
    | Some n => parse_cli P rest (set_wifiCh n c) w
    | None => (Throw, w)
    end.
Proof. run_flag. now destruct (stoi P v). Qed.

Lemma parse_cli_double_flag (P : Platform) (v : string) (c : Config) (rest : list string)
    (w : World) :
  parse_cli P ("--rate" :: v :: rest) c w
  = match stod P v with
    | Some x => parse_cli P rest (set_sampRate x c) w
    | None => (Throw, w)
    end
  /\ parse_cli P ("--bw" :: v :: rest) c w
     = match stod P v with
       | Some x => parse_cli P rest (set_rfBw x c) w
       | None => (Throw, w)
       end
  /\ parse_cli P ("--gain" :: v :: rest) c w
     = match stod P v with
       | Some x => parse_cli P rest (set_gain x c) w
       | None => (Throw, w)
       end
  /\ parse_cli P ("--secs" :: v :: rest) c w
     = match stod P v with
       | Some x => parse_cli P rest (set_seconds x c) w
       | None => (Throw, w)
       end.
Proof. repeat split; run_flag; now destruct (stod P v). Qed.

Lemma parse_cli_value (P : Platform) (a v : string) (c : Config) :
  value_flag a = true ->
  (exists c', forall rest w, parse_cli P (a :: v :: rest) c w = parse_cli P rest c' w)
  \/ (forall rest w, parse_cli P (a :: v :: rest) c w = (Throw, w)).
Proof.
  intros H.
  destruct (parse_cli_text_flag P v c) as (Hargs & Hout & Hfmt).
  destruct (value_flag_cases a H) as [-> | [-> | [-> | [-> | [-> | [-> | [-> | ->]]]]]]].
  - left. eexists. exact Hargs.
  - destruct (stoi P v) as [n|] eqn:Hn; [left; exists (set_wifiCh n c) | right];
      intros rest w; now rewrite parse_cli_chan, Hn.
  - destruct (stod P v) as [x|] eqn:Hx; [left; exists (set_sampRate x c) | right];
      intros rest w; destruct (parse_cli_double_flag P v c rest w) as (-> & _); now rewrite Hx.
  - destruct (stod P v) as [x|] eqn:Hx; [left; exists (set_rfBw x c) | right];
      intros rest w; destruct (parse_cli_double_flag P v c rest w) as (_ & -> & _);
      now rewrite Hx.
  - destruct (stod P v) as [x|] eqn:Hx; [left; exists (set_gain x c) | right];
      intros rest w; destruct (parse_cli_double_flag P v c rest w) as (_ & _ & -> & _);
      now rewrite Hx.
  - left. eexists. exact Hout.
  - destruct (stod P v) as [x|] eqn:Hx; [left; exists (set_seconds x c) | right];
      intros rest w; destruct (parse_cli_double_flag P v c rest w) as (_ & _ & _ & ->);
      now rewrite Hx.
  - left. eexists. exact Hfmt.
Qed.

Lemma parse_cli_other (P : Platform) (a : string) (rest : list string) (c : Config)
    (w : World) :
  value_flag a = false ->
  parse_cli P (a :: rest) c w
  = if (a =? "--help")%string
    then (Exit 0, mkWorld (fs w) (trace w ++ [Cout usage]) (g_stop w) (unflushed w))
    else parse_cli P rest c w.
Proof.
  unfold value_flag. intros H.
  repeat (apply orb_false_iff in H as [H ?]).
  cbn [parse_cli]. repeat match goal with Hx : (a =? _)%string = false |- _ =>
                            rewrite Hx; clear Hx end.
  destruct (a =? "--help")%string; reflexivity.
Qed.

(** A value flag that comes last, after words that were parsed to the end,
    stops the process with status 2. *)
Lemma parse_cli_dangling (P : Platform) (a : string) :
  value_flag a = true ->
  forall (n : nat) (pre : list string),
    (length pre <= n)%nat ->
    forall (c0 c : Config) (w w0 : World),
      parse_cli P pre c0 w = (Ok c, w0) ->
      parse_cli P (pre ++ [a]) c0 w
      = (Exit 2, say ("Missing value for " +:+ a +:+ nl) w0).
Proof.
  intros Ha. induction n as [|n IH]; intros pre Hlen c0 c w w0 Hparse.
  - destruct pre; [|cbn in Hlen; lia]. injection Hparse as <- <-.
    now apply parse_cli_missing.
  - destruct pre as [|x pre]; [injection Hparse as <- <-; now apply parse_cli_missing|].
    destruct (value_flag x) eqn:Hx.
    + destruct pre as [|v pre];
        [rewrite parse_cli_missing in Hparse by exact Hx; discriminate|].
      destruct (parse_cli_value P x v c0 Hx) as [[c' Hstep] | Hthrow].
      * rewrite Hstep in Hparse. cbn [app]. rewrite Hstep.
        apply (IH pre ltac:(cbn in Hlen; lia) _ _ _ _ Hparse).
      * rewrite Hthrow in Hparse. discriminate.
    + rewrite parse_cli_other in Hparse by exact Hx. cbn [app].
      rewrite parse_cli_other by exact Hx.
      destruct (x =? "--help")%string; [discriminate|].
      apply (IH pre ltac:(cbn in Hlen; lia) _ _ _ _ Hparse).
Qed.

Lemma run_session_no_device (P : Platform) (E : Env) (c : Config) (w : World) :
  enumerate E (devArgs c) = [] -> exit_code (run_session P E c w) = Some 1.
Proof. intros H. unfold run_session, open_session. rewrite H. reflexivity. Qed.

Lemma run_session_make_failed (P : Platform) (E : Env) (c : Config) (w : World) :
  enumerate E (devArgs c) <> [] -> make E (devArgs c) = false ->
  exit_code (run_session P E c w) = Some 1.
Proof.
  intros Hne H. unfold run_session, open_session.
  destruct (enumerate E (devArgs c)); [congruence|]. rewrite H. reflexivity.
Qed.

Lemma run_session_setup_failed (P : Platform) (E : Env) (c : Config) (w : World)
    (freq : double) :
  enumerate E (devArgs c) <> [] ->
  make E (devArgs c) = true ->
  (forall w', wifi2g_ch_to_hz (wifiCh c) w' = (Ok freq, w')) ->
  setSampleRate_throws E = false ->
  setBandwidth_throws E = false ->
  setFrequency_throws E = false ->
  setupStream E (fmt c) = false ->
  exit_code (run_session P E c w) = Some 1.
Proof.
  intros Hne Hmake Hfreq Hrate Hbw Hfq Hsetup.
  unfold run_session, open_session.
  destruct (enumerate E (devArgs c)); [congruence|].
  rewrite Hmake, Hrate, Hbw, Hfq, Hsetup.
  mstep. rewrite Hfreq. mstep.
  destruct (setDCOffsetMode_throws E), (setIQBalance_throws E), (setGain_throws E);
    reflexivity.
Qed.

(** C7. The exit status of [main] is 0 whenever the run gets out of the
    streaming loop (by duration, cancellation, fatal read or short write);
    it is 1 when the enumeration is empty, when the device cannot be made,
    when the stream cannot be set up and when the binary file does not open;
    and it is 2 when the command line ends with a flag that lacks its
    value. *)
Theorem exit_codes (P : Platform) (E : Env) (argv : list string) (w : World) :
  (forall (c : Config) (w0 : World),
     parse_cli P argv (defaults P) w = (Ok c, w0) ->
     (forall (s : Session) (w1 w2 : World) (total : Z),
        open_session P E c w0 = (Ok s, w1) ->
        streaming_loop P s (script E) (s_buffer s) 0 w1 = (Ok total, w2) ->
        exit_code (main P E argv w) = Some 0)
     /\ (enumerate E (devArgs c) = [] -> exit_code (main P E argv w) = Some 1)
     /\ (enumerate E (devArgs c) <> [] -> make E (devArgs c) = false ->
         exit_code (main P E argv w) = Some 1)
     /\ (forall freq : double,
           configured E c freq -> setupStream E (fmt c) = false ->
           exit_code (main P E argv w) = Some 1)
     /\ (forall freq : double,
           configured E c freq -> setupStream E (fmt c) = true ->
           fopen E (bin_path P E c freq) = false ->
           exit_code (main P E argv w) = Some 1))
  /\ (forall (pre : list string) (a : string) (c : Config) (w0 : World),
        argv = pre ++ [a] -> value_flag a = true ->
        parse_cli P pre (defaults P) w = (Ok c, w0) ->
        exit_code (main P E argv w) = Some 2).
Proof.
  split.
  - intros c w0 Hparse. unfold main. rewrite (bind_ok _ _ _ _ _ Hparse).
    split; [|split; [|split; [|split]]].
    + intros s w1 w2 total Hopen Hloop.
      now rewrite (run_session_finished _ _ _ _ _ _ _ _ Hopen Hloop).
    + apply run_session_no_device.
    + apply run_session_make_failed.
    + intros freq (Hne & Hmake & Hfreq & Hrate & Hbw & Hfq) Hsetup.
      now apply (run_session_setup_failed P E c w0 freq).
    + intros freq (Hne & Hmake & Hfreq & Hrate & Hbw & Hfq) Hsetup Hfopen.
      destruct (enumerate E (devArgs c)) as [|front others] eqn:Henum; [congruence|].
      now rewrite (run_session_fopen_refused P E c w0 front others freq).
  - intros pre a c w0 -> Ha Hparse. unfold main.
    now rewrite (bind_exit _ _ _ _ _
                   (parse_cli_dangling P a Ha (length pre) pre (le_n _) _ _ _ _ Hparse)).
Qed.

Lemma exit_codes_witness :
  exit_code (main demo_platform (demo_env steady_script) ["--fmt"; "CS16"; "--chan"] (boot ∅))
  = Some 2
  /\ exit_code (main demo_platform (demo_env steady_script) ["--fmt"; "CS16"] (boot ∅))
     = Some 0
  /\ exit_code (main demo_platform (with_fopen (demo_env steady_script) (fun _ => false))
                  ["--fmt"; "CS16"] (boot ∅))
     = Some 1.
Proof.
  split; [|split].
  - apply (proj2 (exit_codes demo_platform (demo_env steady_script)
                    ["--fmt"; "CS16"; "--chan"] (boot ∅))
             ["--fmt"; "CS16"] "--chan" demo_cfg (boot ∅)); reflexivity.
  - pose (E := demo_env steady_script).
    pose (w2 := snd (streaming_loop demo_platform (demo_session E) (script E)
                       (s_buffer (demo_session E)) 0 (demo_opened E))).
    apply (proj1 (proj1 (exit_codes demo_platform E ["--fmt"; "CS16"] (boot ∅))
                    demo_cfg (boot ∅) eq_refl)
             (demo_session E) (demo_opened E) w2 4);
      vm_compute; reflexivity.
  - pose (E := with_fopen (demo_env steady_script) (fun _ => false)).
    destruct (proj1 (exit_codes demo_platform E ["--fmt"; "CS16"] (boot ∅))
                demo_cfg (boot ∅) eq_refl) as (_ & _ & _ & _ & Hfopen).
    apply (Hfopen demo_freq); [|reflexivity..].
    repeat split; try reflexivity. vm_compute. discriminate.
Defined.

(** ** The command line, word by word *)

Lemma parse_cli_prefix (P : Platform) (pre : list string) (c0 c : Config) (w w0 : World) :
  parse_cli P pre c0 w = (Ok c, w0) ->
  w0 = w /\ forall rest, parse_cli P (pre ++ rest) c0 w = parse_cli P rest c w.
Proof.
  remember (length pre) as n eqn:Hn.
  assert (Hlen : (length pre <= n)%nat) by lia. clear Hn.
  revert pre Hlen c0 c w w0.
  induction n as [|n IH]; intros pre Hlen c0 c w w0 Hparse.
  - destruct pre; [|cbn in Hlen; lia]. injection Hparse as <- <-. now split.
  - destruct pre as [|x pre]; [injection Hparse as <- <-; now split|].
    destruct (value_flag x) eqn:Hx.
    + destruct pre as [|v pre];
        [rewrite parse_cli_missing in Hparse by exact Hx; discriminate|].
      destruct (parse_cli_value P x v c0 Hx) as [[c' Hstep] | Hthrow];
        [|rewrite Hthrow in Hparse; discriminate].
      rewrite Hstep in Hparse.
      destruct (IH pre ltac:(cbn in Hlen; lia) _ _ _ _ Hparse) as [-> Happ].
      split; [reflexivity|]. intros rest. cbn [app]. now rewrite Hstep.
    + rewrite parse_cli_other in Hparse by exact Hx.
      destruct (x =? "--help")%string eqn:Hhelp; [discriminate|].
      destruct (IH pre ltac:(cbn in Hlen; lia) _ _ _ _ Hparse) as [-> Happ].
      split; [reflexivity|]. intros rest. cbn [app].
      now rewrite parse_cli_other, Hhelp by exact Hx.
Qed.

(** X1. Words that are parsed to the end print nothing and touch nothing,
    and parsing goes on after them from the configuration they built:
    [parse_cli] of a concatenation is the composition of the two parses. *)
Theorem parse_cli_app (P : Platform) (pre : list string) (c0 c : Config) (w w0 : World) :
  parse_cli P pre c0 w = (Ok c, w0) ->
  w0 = w /\ forall rest, parse_cli P (pre ++ rest) c0 w = parse_cli P rest c w.
Proof. apply parse_cli_prefix. Qed.

Lemma parse_cli_app_witness :
  parse_cli demo_platform (["--fmt"; "CS16"] ++ ["--chan"; "11"]) (defaults demo_platform)
    (boot ∅)
  = parse_cli demo_platform ["--chan"; "11"] demo_cfg (boot ∅).
Proof.
  apply (proj2 (parse_cli_app demo_platform ["--fmt"; "CS16"] (defaults demo_platform)
                  demo_cfg (boot ∅) (boot ∅) eq_refl)).
Defined.

(** X2. [--help] met where a flag is expected prints the usage text on
    standard output and ends the process with status 0 before the driver is
    asked anything: the words after it are not looked at and no device is
    enumerated. *)
Theorem help_stops_before_the_driver (P : Platform) (E : Env) (pre rest : list string)
    (c : Config) (w w0 : World) :
  parse_cli P pre (defaults P) w = (Ok c, w0) ->
  main P E (pre ++ "--help" :: rest) w
  = (Exit 0, mkWorld (fs w) (trace w ++ [Cout usage]) (g_stop w) (unflushed w)).
Proof.
  intros Hparse. destruct (parse_cli_prefix _ _ _ _ _ _ Hparse) as [-> Happ].
  unfold main. erewrite bind_exit; [reflexivity|].
  rewrite Happ, parse_cli_other by reflexivity. reflexivity.
Qed.

Lemma help_stops_before_the_driver_witness :
  main demo_platform (demo_env steady_script) (["--chan"; "3"] ++ "--help" :: ["--chan"])
    (boot ∅)
  = (Exit 0, mkWorld ∅ ([] ++ [Cout usage]) false []).
Proof.
  apply (help_stops_before_the_driver demo_platform (demo_env steady_script)
           ["--chan"; "3"] ["--chan"] (set_wifiCh 3 (defaults demo_platform))
           (boot ∅) (boot ∅)).
  reflexivity.
Defined.

(** X3. A value that [std::stoi] or [std::stod] rejects leaves [main] by
    the exception, with nothing printed and no call made: the process is
    terminated, it does not exit with status 2. *)
Theorem bad_number_terminates (P : Platform) (E : Env) (pre rest : list string)
    (a v : string) (c : Config) (w w0 : World) :
  parse_cli P pre (defaults P) w = (Ok c, w0) ->
  (a = "--chan" /\ stoi P v = None) \/ (double_flag a = true /\ stod P v = None) ->
  main P E (pre ++ a :: v :: rest) w = (Throw, w).
Proof.
  intros Hparse Hbad. destruct (parse_cli_prefix _ _ _ _ _ _ Hparse) as [-> Happ].
  unfold main. erewrite bind_throw; [reflexivity|]. rewrite Happ.
  destruct Hbad as [[-> Hv] | [Ha Hv]].
  - now rewrite parse_cli_chan, Hv.
  - destruct (parse_cli_double_flag P v c rest w) as (Hrate & Hbw & Hgain & Hsecs).
    unfold double_flag in Ha. rewrite !orb_true_iff, !String.eqb_eq in Ha.
    destruct Ha as [[[-> | ->] | ->] | ->].
    + now rewrite Hrate, Hv.
    + now rewrite Hbw, Hv.
    + now rewrite Hgain, Hv.
    + now rewrite Hsecs, Hv.
Qed.

Lemma bad_number_terminates_witness :
  main demo_platform (demo_env steady_script) ([] ++ "--chan" :: "six" :: []) (boot ∅)
  = (Throw, boot ∅).
Proof.
  apply (bad_number_terminates demo_platform (demo_env steady_script) [] [] "--chan" "six"
           (defaults demo_platform) (boot ∅) (boot ∅) eq_refl).
  left. split; reflexivity.
Defined.

(** X4. A flag given twice keeps its last value: when the first value is
    accepted, the command line means the same with the first occurrence
    removed. *)
Theorem last_flag_wins (P : Platform) (a v1 v2 : string) (rest : list string)
    (c c1 : Config) (w : World) :
  value_flag a = true ->
  parse_cli P [a; v1] c w = (Ok c1, w) ->
  parse_cli P (a :: v1 :: a :: v2 :: rest) c w = parse_cli P (a :: v2 :: rest) c w.
Proof.
  intros Ha H1.
  destruct (parse_cli_text_flag P v1 c) as (Hargs1 & Hout1 & Hfmt1).
  destruct (parse_cli_text_flag P v2 c) as (Hargs2 & Hout2 & Hfmt2).
  destruct (value_flag_cases a Ha) as [-> | [-> | [-> | [-> | [-> | [-> | [-> | ->]]]]]]].
  - rewrite Hargs1, Hargs2.
    now destruct (parse_cli_text_flag P v2 (set_devArgs v1 c)) as (-> & _).
  - rewrite parse_cli_chan in H1. rewrite !parse_cli_chan.
    destruct (stoi P v1); [|discriminate]. rewrite !parse_cli_chan. reflexivity.
  - destruct (parse_cli_double_flag P v1 c [] w) as (Hr & _). rewrite Hr in H1.
    destruct (parse_cli_double_flag P v1 c ("--rate" :: v2 :: rest) w) as (-> & _).
    destruct (parse_cli_double_flag P v2 c rest w) as (-> & _).
    destruct (stod P v1) as [x|]; [|discriminate].
    now destruct (parse_cli_double_flag P v2 (set_sampRate x c) rest w) as (-> & _).
  - destruct (parse_cli_double_flag P v1 c [] w) as (_ & Hr & _). rewrite Hr in H1.
    destruct (parse_cli_double_flag P v1 c ("--bw" :: v2 :: rest) w) as (_ & -> & _).
    destruct (parse_cli_double_flag P v2 c rest w) as (_ & -> & _).
    destruct (stod P v1) as [x|]; [|discriminate].
    now destruct (parse_cli_double_flag P v2 (set_rfBw x c) rest w) as (_ & -> & _).
  - destruct (parse_cli_double_flag P v1 c [] w) as (_ & _ & Hr & _). rewrite Hr in H1.
    destruct (parse_cli_double_flag P v1 c ("--gain" :: v2 :: rest) w) as (_ & _ & -> & _).
    destruct (parse_cli_double_flag P v2 c rest w) as (_ & _ & -> & _).
    destruct (stod P v1) as [x|]; [|discriminate].
    now destruct (parse_cli_double_flag P v2 (set_gain x c) rest w) as (_ & _ & -> & _).
  - rewrite Hout1, Hout2.
    now destruct (parse_cli_text_flag P v2 (set_outDir v1 c)) as (_ & -> & _).
  - destruct (parse_cli_double_flag P v1 c [] w) as (_ & _ & _ & Hr). rewrite Hr in H1.
    destruct (parse_cli_double_flag P v1 c ("--secs" :: v2 :: rest) w) as (_ & _ & _ & ->).
    destruct (parse_cli_double_flag P v2 c rest w) as (_ & _ & _ & ->).
    destruct (stod P v1) as [x|]; [|discriminate].
    now destruct (parse_cli_double_flag P v2 (set_seconds x c) rest w) as (_ & _ & _ & ->).
  - rewrite Hfmt1, Hfmt2.
    now destruct (parse_cli_text_flag P v2 (set_fmt v1 c)) as (_ & _ & ->).
Qed.

Lemma last_flag_wins_witness :
  parse_cli demo_platform ["--chan"; "1"; "--chan"; "11"] (defaults demo_platform) (boot ∅)
  = parse_cli demo_platform ["--chan"; "11"] (defaults demo_platform) (boot ∅).
Proof.
  apply (last_flag_wins demo_platform "--chan" "1" "11" [] (defaults demo_platform)
           (set_wifiCh 1 (defaults demo_platform)) (boot ∅)); reflexivity.
Defined.

(** X15. A word that is neither a flag nor [--help], met where a flag is
    expected, is skipped without a message: the run is the one of the
    command line without it, so a misspelt flag silently leaves the default
    in place. *)
Theorem unknown_words_are_ignored (P : Platform) (E : Env) (pre rest : list string)
    (a : string) (c : Config) (w w0 : World) :
  parse_cli P pre (defaults P) w = (Ok c, w0) ->
  value_flag a = false -> a <> "--help" ->
  main P E (pre ++ a :: rest) w = main P E (pre ++ rest) w.
Proof.
  intros Hparse Ha Hhelp. destruct (parse_cli_prefix _ _ _ _ _ _ Hparse) as [-> Happ].
  apply String.eqb_neq in Hhelp.
  unfold main, mbind, M_bind. now rewrite !Happ, parse_cli_other, Hhelp by exact Ha.
Qed.

Lemma unknown_words_are_ignored_witness :
  main demo_platform (demo_env steady_script) (["--fmt"; "CS16"] ++ "--chanel" :: ["3"])
    (boot ∅)
  = main demo_platform (demo_env steady_script) (["--fmt"; "CS16"] ++ ["3"]) (boot ∅).
Proof.
  apply (unknown_words_are_ignored demo_platform (demo_env steady_script)
           ["--fmt"; "CS16"] ["3"] "--chanel" demo_cfg (boot ∅) (boot ∅));
    [reflexivity | reflexivity | discriminate].
Defined.

(** ** More on the turns of the loop *)

(** X5. A read that times out is not an error: any number of timeouts in
    a row add only the [readStream] calls themselves to the trace, print
    nothing, leave the files, the stream and the count alone, and the loop
    goes on. *)
Theorem timeouts_are_silent (P : Platform) (s : Session) (rest touts : list Iter) :
  forall (buf : bytes) (total : Z) (w : World),
    g_stop w = false ->
    Forall (fun it => reads s it /\ rd_ret (it_read it) = SOAPY_SDR_TIMEOUT P) touts ->
    exists buf',
      length buf' = length buf /\
      streaming_loop P s (touts ++ rest) buf total w
      = streaming_loop P s rest buf' total
          (mkWorld (fs w)
                   (trace w ++ replicate (length touts) (ReadStream (s_mtu s) 200000))
                   false (unflushed w)).
Proof.
  induction touts as [|it touts IH]; intros buf total w Hw Hall.
  - exists buf. split; [reflexivity|]. cbn. rewrite app_nil_r.
    destruct w; cbn in *; now subst.
  - apply Forall_cons in Hall as [[Hreads Hret] Hall]. cbn [app].
    assert (Hk : classify P (rd_ret (it_read it)) = Timeout)
      by (unfold classify; now rewrite Hret, Z.eqb_refl).
    rewrite turn_idle; [| exact Hw | split; [exact Hreads | now left]].
    unfold turn_events. rewrite Hk.
    lazymatch goal with
    | |- exists _, _ /\ streaming_loop _ _ _ ?b ?t ?w1 = _ =>
      destruct (IH b t w1 eq_refl Hall) as (buf' & Hlen & ->)
    end.
    exists buf'. split; [now rewrite Hlen, length_store|].
    cbn [fs trace length replicate]. now rewrite <- app_assoc.
Qed.

Lemma timeouts_are_silent_witness :
  let E := demo_env [timeout_turn_at 2000; timeout_turn_at 3000; late_turn] in
  let s := demo_session E in
  exists buf',
    length buf' = length (s_buffer s) /\
    streaming_loop demo_platform s ([timeout_turn_at 2000; timeout_turn_at 3000] ++ [late_turn])
      (s_buffer s) 0 (demo_opened E)
    = streaming_loop demo_platform s [late_turn] buf' 0
        (mkWorld (fs (demo_opened E))
                 (trace (demo_opened E) ++ replicate 2 (ReadStream (s_mtu s) 200000)) false (unflushed (demo_opened E))).
Proof.
  intros E s.
  apply (timeouts_are_silent demo_platform s [late_turn]
           [timeout_turn_at 2000; timeout_turn_at 3000] (s_buffer s) 0 (demo_opened E));
    [reflexivity|].
  repeat constructor; vm_compute; reflexivity.
Defined.

(** X6. A successful read is written from the buffer, not from what the
    driver stored: for [ret] samples the stream is handed the first
    [elemSize * ret] bytes of the buffer after the read, that is the driver's
    bytes followed, when they are fewer than reported, by what the buffer
    held before.  They queue up behind what the stream already buffers, the
    host gets the first [it_flushed] bytes of the queue, and the count is
    advanced modulo 2^64. *)
Theorem read_is_written_from_buffer (P : Platform) (s : Session) (it : Iter)
    (rest : list Iter) (buf : bytes) (total : Z) (w : World) :
  g_stop w = false -> 0 < s_elemSize s ->
  s_elemSize s * s_mtu s <= Z.of_nat (length buf) ->
  reads s it ->
  classify P (rd_ret (it_read it)) = Success ->
  rd_ret (it_read it) <= s_mtu s ->
  s_elemSize s * rd_ret (it_read it) <= it_accepted it ->
  let n := Z.to_nat (s_elemSize s * rd_ret (it_read it)) in
  let data := rd_data (it_read it) in
  let out := take n (store data buf) in
  let queued := unflushed w ++ out in
  length out = n
  /\ ((length data <= n)%nat -> out = data ++ take (n - length data) (drop (length data) buf))
  /\ streaming_loop P s (it :: rest) buf total w
     = streaming_loop P s rest (store data buf)
         (size_t_wrap (total + rd_ret (it_read it)))
         (mkWorld (<[s_binPath s := default [] (fs w !! s_binPath s)
                                    ++ take (Z.to_nat (it_flushed it)) queued]> (fs w))
                  (trace w ++ [ReadStream (s_mtu s) 200000;
                               Fwrite (s_elemSize s) (rd_ret (it_read it))]) false
                  (drop (Z.to_nat (it_flushed it)) queued)).
Proof.
  intros Hw Hsize Hbuf (Hsig & Hexp) Hk Hmtu Hacc n data out queued.
  pose proof (classify_success _ _ Hk) as Hret.
  assert (Hn : (n <= length buf)%nat) by (subst n; nia).
  split; [subst out; rewrite length_take, length_store; lia|].
  split.
  - intros Hshort. subst out. unfold store.
    rewrite take_take, Nat.min_l by exact Hn.
    rewrite take_app, (take_ge data) by exact Hshort. reflexivity.
  - rewrite streaming_loop_cons, Hsig. cbv zeta. rewrite Hw, Hexp, Hk.
    rewrite fwrite_full; [| lia | lia | rewrite length_store; nia | lia ].
    cbn [fst snd]. rewrite Z.eqb_refl. cbn [negb].
    unfold after_read. cbn [fs trace g_stop unflushed]. rewrite Hw, <- app_assoc. reflexivity.
Qed.

Lemma read_is_written_from_buffer_witness :
  let E := demo_env [lazy_turn; late_turn] in
  let s := demo_session E in
  take 8 (store (cs16_sample Byte.x07) (s_buffer s))
  = cs16_sample Byte.x07 ++ take (8 - 4) (drop 4 (s_buffer s)).
Proof.
  intros E s.
  apply (proj1 (proj2 (read_is_written_from_buffer demo_platform s lazy_turn [late_turn]
                         (s_buffer s) 0 (demo_opened E) eq_refl eq_refl
                         ltac:(vm_compute; discriminate)
                         ltac:(split; vm_compute; reflexivity) eq_refl
                         ltac:(vm_compute; discriminate) ltac:(vm_compute; discriminate)))).
  vm_compute. lia.
Defined.


(** ** More on whole sessions *)



(** Each turn issues at most one read, and a turn that finds the flag set
    issues none and ends the loop. *)
Lemma reads_in_app (a b : list event) : reads_in (a ++ b) = (reads_in a + reads_in b)%nat.
Proof. unfold reads_in. now rewrite List.filter_app, length_app. Qed.

Lemma loop_reaches_signal (P : Platform) (s : Session) (pre : list Iter) :
  forall (it : Iter) (rest : list Iter) (buf : bytes) (total : Z) (w : World),
    it_signal it = true ->
    exists total' w',
      streaming_loop P s (pre ++ it :: rest) buf total w = (Ok total', w')
      /\ (reads_in (trace w') <= reads_in (trace w) + length pre)%nat.
Proof.
  assert (Hsay : forall msg w, reads_in (trace (say msg w)) = reads_in (trace w)).
  { intros msg w. unfold say. cbn [trace]. rewrite reads_in_app. cbn. lia. }
  assert (Hread : forall w, reads_in (trace (after_read s w)) = S (reads_in (trace w))).
  { intros w. unfold after_read. cbn [trace]. rewrite reads_in_app. cbn. lia. }
  induction pre as [|x pre IH]; intros it rest buf total w Hsig.
  - cbn [app]. rewrite turn_cancelled by now left.
    do 2 eexists. split; [reflexivity|]. cbn [trace]. lia.
  - cbn [app length]. rewrite streaming_loop_cons. cbv zeta.
    set (w0 := if it_signal x then sigint_handler w else w).
    assert (H0 : trace w0 = trace w) by (subst w0; now destruct (it_signal x)).
    destruct (g_stop w0); [do 2 eexists; split; [reflexivity|rewrite H0; lia]|].
    destruct (expired s x); [do 2 eexists; split; [reflexivity|rewrite H0; lia]|].
    destruct (classify P (rd_ret (it_read x))).
    + lazymatch goal with
      | |- exists _ _, streaming_loop _ _ _ ?b ?t ?w1 = _ /\ _ =>
        destruct (IH it rest b t w1 Hsig) as (total' & w' & -> & Hle)
      end.
      do 2 eexists. split; [reflexivity|]. rewrite Hread, H0 in Hle. lia.
    + lazymatch goal with
      | |- exists _ _, streaming_loop _ _ _ ?b ?t ?w1 = _ /\ _ =>
        destruct (IH it rest b t w1 Hsig) as (total' & w' & -> & Hle)
      end.
      do 2 eexists. split; [reflexivity|]. rewrite Hsay, Hread, H0 in Hle. lia.
    + do 2 eexists. split; [reflexivity|]. rewrite Hsay, Hread, H0. lia.
    + unfold fwrite. cbn [fst snd]. destruct (negb _).
      * do 2 eexists. split; [reflexivity|]. rewrite Hsay. cbn [trace].
        rewrite reads_in_app, Hread, H0. cbn. lia.
      * lazymatch goal with
        | |- exists _ _, streaming_loop _ _ _ ?b ?t ?w1 = _ /\ _ =>
          destruct (IH it rest b t w1 Hsig) as (total' & w' & -> & Hle)
        end.
        do 2 eexists. split; [reflexivity|]. cbn [trace] in Hle.
        rewrite reads_in_app, Hread, H0 in Hle. cbn in Hle. lia.
Qed.

(** X8. A signal always ends the session in good order: when some turn of
    the script finds that SIGINT or SIGTERM has arrived, the loop ends there
    at the latest, no more reads are issued than there were turns before it,
    the teardown runs and the process exits with status 0. *)
Theorem signal_ends_session (P : Platform) (E : Env) (c : Config) (w w1 : World)
    (s : Session) (pre rest : list Iter) (it : Iter) :
  open_session P E c w = (Ok s, w1) ->
  script E = pre ++ it :: rest ->
  it_signal it = true ->
  let r := run_session P E c w in
  exit_code r = Some 0
  /\ (reads_in (trace (snd r)) <= reads_in (trace w) + length pre)%nat
  /\ exists total before, trace (snd r) = before ++ closing_events s total.
Proof.
  intros Hopen Hscript Hsig r. subst r.
  destruct (loop_reaches_signal P s pre it rest (s_buffer s) 0 w1 Hsig)
    as (total & w2 & Hloop & Hle).
  rewrite <- Hscript in Hloop.
  rewrite (run_session_finished _ _ _ _ _ _ _ _ Hopen Hloop).
  destruct (open_session_spec _ _ _ _ _ _ Hopen) as (front & others & freq & _ & _ & Hw1).
  split; [reflexivity|]. cbn [snd trace]. split; [|now do 2 eexists].
  assert (H1 : reads_in (trace w1) = reads_in (trace w)).
  { rewrite Hw1. cbn [trace]. rewrite reads_in_app. cbn. lia. }
  rewrite reads_in_app. cbn. lia.
Qed.

Lemma signal_ends_session_witness :
  let E := demo_env [good_turn 2000 2 two_samples; signalled_turn;
                     good_turn 4000 2 two_samples] in
  let r := run_session demo_platform E demo_cfg (boot ∅) in
  exit_code r = Some 0
  /\ (reads_in (trace (snd r)) <= reads_in [] + 1)%nat
  /\ exists total before,
       trace (snd r) = before ++ closing_events (demo_session E) total.
Proof.
  intros E r.
  apply (signal_ends_session demo_platform E demo_cfg (boot ∅) (demo_opened E)
           (demo_session E) [good_turn 2000 2 two_samples]
           [good_turn 4000 2 two_samples] signalled_turn); reflexivity.
Defined.

(** ** Durations that are already over *)







(** ** What a session leaves alone *)

(** However [open_session] ends, it has either opened the session or
    stopped with status 1 or by an exception, with the files and the flag as
    they were. *)
Lemma open_session_outcome (P : Platform) (E : Env) (c : Config) (w : World) :
  (exists s w1, open_session P E c w = (Ok s, w1))
  \/ (exists w', (open_session P E c w = (Exit 1, w') \/ open_session P E c w = (Throw, w'))
                 /\ fs w' = fs w /\ g_stop w' = g_stop w).
Proof.
  unfold open_session.
  destruct (enumerate E (devArgs c)) as [|front others];
    [right; eexists; split; [left; reflexivity | split; reflexivity]|].
  destruct (make E (devArgs c));
    [|right; eexists; split; [left; reflexivity | split; reflexivity]].
  mstep.
  destruct (wifi2g_cases (wifiCh c)) as [[freq Hfreq] | Hthrow];
    [rewrite Hfreq | rewrite Hthrow; right; eexists; split;
                     [right; reflexivity | split; reflexivity]].
  mstep.
  destruct (setSampleRate_throws E);
    [right; eexists; split; [right; reflexivity | split; reflexivity]|].
  destruct (setBandwidth_throws E);
    [right; eexists; split; [right; reflexivity | split; reflexivity]|].
  destruct (setFrequency_throws E);
    [right; eexists; split; [right; reflexivity | split; reflexivity]|].
  destruct (setDCOffsetMode_throws E), (setIQBalance_throws E), (setGain_throws E); mstep.
  all: destruct (setupStream E (fmt c)); mstep;
    [|right; eexists; split; [left; reflexivity | split; reflexivity]].
  all: unfold fopen_wb;
    destruct (fopen E _); mstep;
    [left; do 2 eexists; reflexivity
    |right; eexists; split; [left; reflexivity | split; reflexivity]].
Qed.

(** The loop ends normally or runs out of script; it never leaves the
    process or throws, it writes to no file but the binary output, and it
    sets the flag only on a signal. *)
Lemma loop_frame (P : Platform) (s : Session) (turns : list Iter) :
  forall (buf : bytes) (total : Z) (w : World),
    let r := streaming_loop P s turns buf total w in
    ((exists total', fst r = Ok total') \/ fst r = Pending)
    /\ (forall p, p <> s_binPath s -> fs (snd r) !! p = fs w !! p)
    /\ (g_stop w = true -> g_stop (snd r) = true)
    /\ (Forall (fun it => it_signal it = false) turns -> g_stop (snd r) = g_stop w).
Proof.
  induction turns as [|it turns IH]; intros buf total w r; subst r.
  - cbn. repeat split; auto.
  - rewrite streaming_loop_cons. cbv zeta.
    set (w0 := if it_signal it then sigint_handler w else w).
    assert (Hfs0 : fs w0 = fs w) by (subst w0; now destruct (it_signal it)).
    assert (Hup : g_stop w = true -> g_stop w0 = true)
      by (subst w0; now destruct (it_signal it)).
    assert (Hquiet : Forall (fun it => it_signal it = false) (it :: turns) ->
                     g_stop w0 = g_stop w /\ Forall (fun it => it_signal it = false) turns).
    { intros H. apply Forall_cons in H as [H Hrest]. subst w0. now rewrite H. }
    destruct (g_stop w0) eqn:Hg0.
    { cbn [fst snd]. rewrite Hfs0, Hg0. repeat split; eauto.
      intros H. apply Hquiet in H as [H _]. congruence. }
    assert (Hw : g_stop w = false)
      by (destruct (g_stop w); [now specialize (Hup eq_refl) | reflexivity]).
    destruct (expired s it).
    { cbn [fst snd]. rewrite Hfs0, Hg0. repeat split; eauto; congruence. }
    destruct (classify P (rd_ret (it_read it))).
    + edestruct IH as (Hres & Hfs & _ & Hq). split; [exact Hres|].
      split; [intros p Hp; rewrite Hfs by exact Hp; cbn [fs after_read]; now rewrite Hfs0|].
      split; [congruence|]. intros H. apply Hquiet in H as [_ H].
      rewrite Hq by exact H. cbn [g_stop after_read]. congruence.
    + edestruct IH as (Hres & Hfs & _ & Hq). split; [exact Hres|].
      split; [intros p Hp; rewrite Hfs by exact Hp; cbn [fs after_read say]; now rewrite Hfs0|].
      split; [congruence|]. intros H. apply Hquiet in H as [_ H].
      rewrite Hq by exact H. cbn [g_stop after_read say]. congruence.
    + cbn [fst snd fs g_stop after_read say]. rewrite Hfs0.
      repeat split; eauto; congruence.
    + unfold fwrite. cbn [fst snd]. destruct (negb _).
      * cbn [fst snd fs g_stop after_read say]. rewrite Hfs0.
        split; [eauto|]. split; [intros p Hp; now rewrite lookup_insert_ne by auto|].
        split; congruence.
      * edestruct IH as (Hres & Hfs & _ & Hq). split; [exact Hres|].
        split; [intros p Hp; rewrite Hfs by exact Hp; cbn [fs after_read];
                rewrite lookup_insert_ne by auto; now rewrite Hfs0|].
        split; [congruence|]. intros H. apply Hquiet in H as [_ H].
        rewrite Hq by exact H. cbn [g_stop after_read]. congruence.
Qed.

(** X10. A session writes to its two artifacts and to nothing else:
    whatever the environment does and however the run ends, every other path
    of the file system holds afterwards what it held before. *)
Theorem other_files_untouched (P : Platform) (E : Env) (c : Config) (w : World)
    (p : string) :
  (forall freq, p <> bin_path P E c freq /\ p <> json_path P E c freq) ->
  fs (snd (run_session P E c w)) !! p = fs w !! p.
Proof.
  intros Hp. unfold run_session.
  destruct (open_session_outcome P E c w) as [(s & w1 & Hopen) | (w' & Hend & Hfs & _)].
  - rewrite (bind_ok _ _ _ _ _ Hopen).
    destruct (open_session_spec _ _ _ _ _ _ Hopen) as (front & others & freq & _ & Hs & Hw1).
    destruct (Hp freq) as [Hbin Hjson].
    assert (Hbin' : p <> s_binPath s) by now rewrite Hs.
    assert (Hjson' : p <> s_jsonPath s) by now rewrite Hs.
    assert (H1 : fs w1 !! p = fs w !! p)
      by (rewrite Hw1; cbn [fs]; now rewrite lookup_insert_ne by auto).
    destruct (loop_frame P s (script E) (s_buffer s) 0 w1) as ([[total Hres] | Hres] & Hfs & _).
    + destruct (streaming_loop P s (script E) (s_buffer s) 0 w1) as [res w2] eqn:Hloop.
      cbn [fst snd] in *. subst res.
      unfold mbind, M_bind. rewrite Hloop, finish_spec. cbn [snd fs].
      destruct (ofstream_open E (s_jsonPath s));
        [rewrite lookup_insert_ne by auto|]; rewrite closed_others by exact Hbin';
        now rewrite Hfs.
    + destruct (streaming_loop P s (script E) (s_buffer s) 0 w1) as [res w2] eqn:Hloop.
      cbn [fst snd] in *. subst res.
      unfold mbind, M_bind. rewrite Hloop. cbn [snd]. now rewrite Hfs.
  - destruct Hend as [Hend | Hend].
    + rewrite (bind_exit _ _ _ _ _ Hend). cbn [snd]. now rewrite Hfs.
    + rewrite (bind_throw _ _ _ _ Hend). cbn [snd]. now rewrite Hfs.
Qed.

Lemma other_files_untouched_witness :
  let E := demo_env steady_script in
  let notes := <["notes.txt" := two_samples]> ∅ in
  fs (snd (run_session demo_platform E demo_cfg (boot notes))) !! "notes.txt"
  = fs (boot notes) !! "notes.txt".
Proof.
  intros E notes.
  apply (other_files_untouched demo_platform E demo_cfg (boot notes) "notes.txt").
  intros freq. unfold bin_path, json_path, base_path. split; discriminate.
Defined.

(** X11. The flag is only ever raised: a session never clears [g_stop],
    and when no turn of the script carries a signal it leaves the flag as it
    found it. *)
Theorem flag_is_only_raised (P : Platform) (E : Env) (c : Config) (w : World) :
  (g_stop w = true -> g_stop (snd (run_session P E c w)) = true)
  /\ (Forall (fun it => it_signal it = false) (script E) ->
      g_stop (snd (run_session P E c w)) = g_stop w).
Proof.
  unfold run_session.
  destruct (open_session_outcome P E c w) as [(s & w1 & Hopen) | (w' & Hend & _ & Hg)].
  - rewrite (bind_ok _ _ _ _ _ Hopen).
    destruct (open_session_spec _ _ _ _ _ _ Hopen) as (front & others & freq & _ & _ & Hw1).
    assert (H1 : g_stop w1 = g_stop w) by now rewrite Hw1.
    destruct (loop_frame P s (script E) (s_buffer s) 0 w1) as (Hres & _ & Hup & Hquiet).
    destruct (streaming_loop P s (script E) (s_buffer s) 0 w1) as [res w2] eqn:Hloop.
    cbn [fst snd] in *. unfold mbind, M_bind. rewrite Hloop.
    destruct Hres as [[total ->] | ->]; rewrite ?finish_spec; cbn [snd g_stop];
      (split; [intros H; apply Hup; congruence | intros H; rewrite Hquiet by exact H; congruence]).
  - destruct Hend as [Hend | Hend];
      [rewrite (bind_exit _ _ _ _ _ Hend) | rewrite (bind_throw _ _ _ _ Hend)];
      cbn [snd]; split; congruence.
Qed.

Lemma flag_is_only_raised_witness :
  g_stop (snd (run_session demo_platform (demo_env steady_script) demo_cfg (boot ∅))) = false.
Proof.
  apply (proj2 (flag_is_only_raised demo_platform (demo_env steady_script) demo_cfg (boot ∅))).
  repeat constructor.
Defined.

(** X12. Status 0 is earned: a session that exits with status 0 has
    opened its stream and file, gone through the loop, and ends its trace
    with the four teardown calls, the sidecar and the two messages; between
    the opening and the teardown there are only reads, writes and messages. *)
Theorem status_zero_means_teardown (P : Platform) (E : Env) (c : Config) (w : World) :
  exit_code (run_session P E c w) = Some 0 ->
  exists (s : Session) (w1 : World) (total : Z) (w2 : World) (front : Kwargs)
         (others : list Kwargs) (freq : double) (evs : list event),
    open_session P E c w = (Ok s, w1)
    /\ streaming_loop P s (script E) (s_buffer s) 0 w1 = (Ok total, w2)
    /\ trace (snd (run_session P E c w))
       = trace w ++ opening_events P E c (Z.of_nat (length (front :: others))) freq
         ++ evs ++ closing_events s total
    /\ Forall (fun e => loop_event e = true) evs.
Proof.
  intros Hexit.
  destruct (open_session_outcome P E c w) as [(s & w1 & Hopen) | (w' & Hend & _)].
  - destruct (open_session_spec _ _ _ _ _ _ Hopen) as (front & others & freq & _ & _ & Hw1).
    destruct (loop_frame P s (script E) (s_buffer s) 0 w1) as (Hres & _).
    destruct (loop_trace P s (script E) (s_buffer s) 0 w1) as (evs & Htr & Hevs).
    destruct (streaming_loop P s (script E) (s_buffer s) 0 w1) as [res w2] eqn:Hloop.
    cbn [fst snd] in *. destruct Hres as [[total ->] | ->].
    + exists s, w1, total, w2, front, others, freq, evs.
      rewrite (run_session_finished _ _ _ _ _ _ _ _ Hopen Hloop). cbn [snd trace].
      repeat split; auto. rewrite Htr, Hw1. cbn [trace]. now rewrite <- !app_assoc.
    + unfold run_session in Hexit. rewrite (bind_ok _ _ _ _ _ Hopen) in Hexit.
      unfold mbind, M_bind in Hexit. rewrite Hloop in Hexit. discriminate.
  - unfold run_session in Hexit. destruct Hend as [Hend | Hend];
      [rewrite (bind_exit _ _ _ _ _ Hend) in Hexit | rewrite (bind_throw _ _ _ _ Hend) in Hexit];
      discriminate.
Qed.

Lemma status_zero_means_teardown_witness :
  let E := demo_env steady_script in
  exists (s : Session) (w1 : World) (total : Z) (w2 : World) (front : Kwargs)
         (others : list Kwargs) (freq : double) (evs : list event),
    open_session demo_platform E demo_cfg (boot ∅) = (Ok s, w1)
    /\ streaming_loop demo_platform s (script E) (s_buffer s) 0 w1 = (Ok total, w2)
    /\ trace (snd (run_session demo_platform E demo_cfg (boot ∅)))
       = trace (boot ∅)
         ++ opening_events demo_platform E demo_cfg (Z.of_nat (length (front :: others))) freq
         ++ evs ++ closing_events s total
    /\ Forall (fun e => loop_event e = true) evs.
Proof.
  intros E.
  apply (status_zero_means_teardown demo_platform E demo_cfg (boot ∅)).
  vm_compute. reflexivity.
Defined.

(** ** Mandatory setters *)

(** X13. Unlike the three corrections, the setters of sample rate,
    bandwidth and frequency are not guarded: the first of them that throws
    ends the run by its exception.  The call that threw is the last thing
    the program did: the setters before it were called, nothing after it is
    (no stream, no file, no [unmake]), no message is printed for it, and the
    files, the flag and the stream are as they were. *)
Theorem mandatory_setter_failure_is_fatal (P : Platform) (E : Env) (c : Config) (w : World)
    (front : Kwargs) (others : list Kwargs) (freq : double) :
  enumerate E (devArgs c) = front :: others ->
  make E (devArgs c) = true ->
  (forall w', wifi2g_ch_to_hz (wifiCh c) w' = (Ok freq, w')) ->
  let r := run_session P E c w in
  let acquired := acquired_events c (Z.of_nat (length (front :: others))) in
  (setSampleRate_throws E = true ->
   r = (Throw, mkWorld (fs w) (trace w ++ acquired ++ [SetSampleRate (sampRate c)])
                 (g_stop w) (unflushed w)))
  /\ (setSampleRate_throws E = false -> setBandwidth_throws E = true ->
      r = (Throw, mkWorld (fs w)
                    (trace w ++ acquired
                     ++ [SetSampleRate (sampRate c); SetBandwidth (rfBw c)])
                    (g_stop w) (unflushed w)))
  /\ (setSampleRate_throws E = false -> setBandwidth_throws E = false ->
      setFrequency_throws E = true ->
      r = (Throw, mkWorld (fs w)
                    (trace w ++ acquired
                     ++ [SetSampleRate (sampRate c); SetBandwidth (rfBw c);
                         SetFrequency freq])
                    (g_stop w) (unflushed w))).
Proof.
  intros Henum Hmake Hfreq r acquired. subst r acquired.
  unfold run_session, open_session. rewrite Henum, Hmake.
  mstep. rewrite Hfreq. mstep.
  unfold acquired_events.
  split; [intros ->; now rewrite <- !app_assoc|].
  split; [intros -> ->; now rewrite <- !app_assoc|].
  intros -> -> ->. now rewrite <- !app_assoc.
Qed.

Lemma mandatory_setter_failure_is_fatal_witness :
  run_session demo_platform picky_env demo_cfg (boot ∅)
  = (Throw, mkWorld (fs (boot ∅))
              (trace (boot ∅) ++ acquired_events demo_cfg (Z.of_nat (length [demo_device]))
               ++ [SetSampleRate (sampRate demo_cfg); SetBandwidth (rfBw demo_cfg)])
              (g_stop (boot ∅)) (unflushed (boot ∅))).
Proof.
  apply (proj1 (proj2 (mandatory_setter_failure_is_fatal demo_platform picky_env demo_cfg
                         (boot ∅) demo_device [] demo_freq eq_refl eq_refl
                         (fun _ => eq_refl)))); reflexivity.
Defined.

(** ** The UTC stamp *)

Lemma string_length_app (s1 s2 : string) :
  String.length (s1 +:+ s2) = (String.length s1 + String.length s2)%nat.
Proof. induction s1 as [|a s1 IH]; [reflexivity|]. simpl. now f_equal. Qed.

Lemma string_app_assoc (s1 s2 s3 : string) : (s1 +:+ s2) +:+ s3 = s1 +:+ (s2 +:+ s3).
Proof.
  induction s1 as [|a s1 IH]; [reflexivity|].
  change (String a ((s1 +:+ s2) +:+ s3) = String a (s1 +:+ (s2 +:+ s3))). now f_equal.
Qed.

(** A width that holds on a whole interval, by running the printer on each
    of its numbers. *)
Lemma width_on_interval (f : Z -> string) (lo n : Z) (k : nat) :
  forallb (fun z => Nat.eqb (String.length (f z)) k) (seqZ lo n) = true ->
  forall z, lo <= z < lo + n -> String.length (f z) = k.
Proof.
  intros H z Hz. rewrite forallb_forall in H.
  apply Nat.eqb_eq, H, list_elem_of_In, elem_of_seqZ. lia.
Qed.

Lemma year_width (z : Z) : 1000 <= z <= 9999 -> String.length (show_int z) = 4%nat.
Proof.
  intros Hz. apply (width_on_interval show_int 1000 9000 4); [vm_compute; reflexivity | lia].
Qed.

Lemma pad2_width (z : Z) : 0 <= z <= 99 -> String.length (pad2 z) = 2%nat.
Proof.
  intros Hz. apply (width_on_interval pad2 0 100 2); [vm_compute; reflexivity | lia].
Qed.

(** X14. For a calendar time with a four-digit year and fields in their
    ranges the stamp has the fixed shape of its format: eight characters of
    date, [T], six characters of time, [Z], sixteen characters in all. *)
Theorem stamp_is_fixed_width (E : Env) :
  1000 <= 1900 + tm_year (gmtime E) <= 9999 ->
  0 <= tm_mon (gmtime E) <= 11 ->
  1 <= tm_mday (gmtime E) <= 31 ->
  0 <= tm_hour (gmtime E) <= 23 ->
  0 <= tm_min (gmtime E) <= 59 ->
  0 <= tm_sec (gmtime E) <= 60 ->
  String.length (now_utc_compact E) = 16%nat
  /\ exists date time : string,
       now_utc_compact E = date +:+ "T" +:+ time +:+ "Z"
       /\ String.length date = 8%nat /\ String.length time = 6%nat.
Proof.
  intros Hy Hmo Hd Hh Hmi Hs. unfold now_utc_compact. cbv zeta.
  pose proof (year_width _ Hy) as Ly.
  pose proof (pad2_width (1 + tm_mon (gmtime E)) ltac:(lia)) as Lmo.
  pose proof (pad2_width (tm_mday (gmtime E)) ltac:(lia)) as Ld.
  pose proof (pad2_width (tm_hour (gmtime E)) ltac:(lia)) as Lh.
  pose proof (pad2_width (tm_min (gmtime E)) ltac:(lia)) as Lmi.
  pose proof (pad2_width (tm_sec (gmtime E)) ltac:(lia)) as Ls.
  split.
  - rewrite !string_length_app, Ly, Lmo, Ld, Lh, Lmi, Ls. reflexivity.
  - exists (show_int (1900 + tm_year (gmtime E)) +:+ pad2 (1 + tm_mon (gmtime E))
            +:+ pad2 (tm_mday (gmtime E))),
           (pad2 (tm_hour (gmtime E)) +:+ pad2 (tm_min (gmtime E))
            +:+ pad2 (tm_sec (gmtime E))).
    split; [now rewrite !string_app_assoc|].
    rewrite !string_length_app, Ly, Lmo, Ld, Lh, Lmi, Ls. split; reflexivity.
Qed.

Lemma stamp_is_fixed_width_witness :
  String.length (now_utc_compact (demo_env steady_script)) = 16%nat
  /\ exists date time : string,
       now_utc_compact (demo_env steady_script) = date +:+ "T" +:+ time +:+ "Z"
       /\ String.length date = 8%nat /\ String.length time = 6%nat.
Proof.
  apply (stamp_is_fixed_width (demo_env steady_script)); vm_compute; split; discriminate.
Defined.
